(** * Data Visualization Agent: workflow state machine

    A shallow embedding of
    [ai_data_science_team/agents/data_visualization_agent.py].

    Python dictionaries (the LangGraph state, the partial updates returned by
    the node functions, the agent's [_params]) are finite maps from strings to
    dynamically typed values.  Effects (calls to the language model, to the
    dataset summarizer, to the runner of generated code, to the human at
    the review step, printing and filesystem operations) are threaded
    through an explicit [world], and Python exceptions are an explicit
    [Raise] result. *)

From Stdlib Require Import ZArith Lia Ascii.
From stdpp Require Import base strings gmap list fin_maps.

Set Warnings "-register-all".

Local Open Scope string_scope.
Local Open Scope Z_scope.

(** ** Python values *)

Inductive value : Type :=
| VNone
| VBool (b : bool)
| VInt (z : Z)
| VStr (s : string)
| VList (l : list value)
| VDict (d : list (string * value))
| VDataFrame (d : list (string * value))
| VMessage (role content : string)
| VMarkdown (s : string)
| VModel (id : nat).

(** Python truthiness, as used by [if x:] and [x and y]. *)
Definition truthy (v : value) : bool :=
  match v with
  | VNone => false
  | VBool b => b
  | VInt z => negb (z =? 0)
  | VStr s => negb (String.length s =? 0)%nat
  | VList l => negb (List.length l =? 0)%nat
  | VDict d => negb (List.length d =? 0)%nat
  | VDataFrame _ => true
  | VMessage _ _ => true
  | VMarkdown _ => true
  | VModel _ => true
  end.

(** ** Python strings

    Characters are code points below 256; [nl] is the newline written
    backslash-n in the source. *)

Definition nl : string := String (ascii_of_nat 10) EmptyString.

(** [str.isspace] on one character of that range. *)
Definition is_space (c : ascii) : bool :=
  let n := nat_of_ascii c in
  ((9 <=? n) && (n <=? 13) || (28 <=? n) && (n <=? 32) ||
   (n =? 133) || (n =? 160))%nat.

Fixpoint lstrip (s : string) : string :=
  match s with
  | EmptyString => EmptyString
  | String c r => if is_space c then lstrip r else s
  end.

Fixpoint string_rev_onto (s acc : string) : string :=
  match s with
  | EmptyString => acc
  | String c r => string_rev_onto r (String c acc)
  end.

Definition string_rev (s : string) : string := string_rev_onto s EmptyString.

Definition rstrip (s : string) : string := string_rev (lstrip (string_rev s)).

(** [str.strip()] *)
Definition strip (s : string) : string := rstrip (lstrip s).

(** [str.lower()] on one character: A-Z and the Latin-1 capitals. *)
Definition lower_char (c : ascii) : ascii :=
  let n := nat_of_ascii c in
  if ((65 <=? n) && (n <=? 90) ||
      (192 <=? n) && (n <=? 222) && negb (n =? 215))%nat
  then ascii_of_nat (n + 32) else c.

Fixpoint lower (s : string) : string :=
  match s with
  | EmptyString => EmptyString
  | String c r => String (lower_char c) (lower r)
  end.

(** [sep.join(parts)] *)
Fixpoint join (sep : string) (parts : list string) : string :=
  match parts with
  | [] => EmptyString
  | [p] => p
  | p :: rest => p ++ sep ++ join sep rest
  end.

(** [startswith] as a proposition. *)
Definition starts_with (pre s : string) : Prop := ∃ rest, s = pre ++ rest.

(** ** Exceptions and the world *)

Inductive exn : Type :=
| TypeError (msg : string)
| AttributeError (msg : string)
| ModelError (msg : string)
| OSError (msg : string)
| GraphRecursionError.

Inductive result (A : Type) : Type :=
| Ok (a : A)
| Raise (e : exn).
Arguments Ok {A} a.
Arguments Raise {A} e.

Inductive fs_event : Type :=
| MakeDirs (path : value)
| SaveFile (path : value) (name : value) (content : string).

(** Everything a run leaves behind outside the workflow state. *)
Record world : Type := World {
  llm_calls : nat;
  summary_calls : nat;
  exec_calls : nat;
  review_calls : nat;
  stdout : list string;
  fs_log : list fs_event;
}.

Definition world0 : world := World 0 0 0 0 [] [].

(** State-and-exception monad over [world]. *)
Definition M (A : Type) : Type := world → result A * world.

Definition ret {A} (a : A) : M A := λ w, (Ok a, w).
Definition raise {A} (e : exn) : M A := λ w, (Raise e, w).
Definition bind {A B} (m : M A) (k : A → M B) : M B :=
  λ w, match m w with
       | (Ok a, w') => k a w'
       | (Raise e, w') => (Raise e, w')
       end.

Declare Scope py_scope.
Delimit Scope py_scope with py.
Notation "'let*' x ':=' m 'in' k" := (bind m (λ x, k))
  (at level 10, x name, m at level 100, k at level 200) : py_scope.
Local Open Scope py_scope.

Definition print (line : string) : M unit :=
  λ w, (Ok (), World (llm_calls w) (summary_calls w) (exec_calls w)
                 (review_calls w) (stdout w ++ [line]) (fs_log w)).

Definition fs_record (ev : fs_event) : M unit :=
  λ w, (Ok (), World (llm_calls w) (summary_calls w) (exec_calls w)
                 (review_calls w) (stdout w) (fs_log w ++ [ev])).

(** ** External collaborators

    Everything the module imports and does not define: the language model
    behind [prompt | llm], the repository's text tools and summarizer, the
    runner of generated code, the human answering an interrupt, and
    the operating system.  The [nat] argument of the interactive ones is the
    number of earlier calls, so successive answers may differ. *)

Inductive template : Type :=
| recommend_steps_prompt
| prompt_template
| fix_prompt
| explanation_prompt_template.

Record prompt : Type := Prompt {
  p_template : template;
  p_inputs : list (string * value);
}.

(** What running generated code yields: a chart document or an exception
    message. *)
Inductive outcome : Type :=
| Returned (fig : list (string * value))
| Raised (msg : string).

Record review_request : Type := ReviewRequest {
  rr_prompt_text : string;
  rr_steps : value;
  rr_code : value;
}.

Record collaborators : Type := Collaborators {
  llm_invoke : value → nat → prompt → result string;
  PythonOutputParser : string → result string;
  relocate_imports_inside_function : string → string;
  add_comments_to_top : string → string → string;
  format_agent_name : string → string;
  get_dataframe_summary : list value → value → list string;
  plotly_from_dict : value → value;
  py_repr : value → string;
  run_agent_function : nat → string → value → value → outcome;
  interrupt : nat → review_request → string;
  os_getcwd : string;
  os_path_join : string → string → string;
  os_path_exists : value → bool;
  os_makedirs : value → result unit;
  log_target : value → value → value → value * value;
}.

(** ** The workflow state and its updates

    A [GraphState] instance is a plain dict at run time; keys never written
    are absent and [state.get(k)] reads them as [None]. *)

Abbreviation GraphState := (gmap string value).

Definition get (state : GraphState) (k : string) : value :=
  default VNone (state !! k).

Definition get_default (state : GraphState) (k : string) (d : value) : value :=
  default d (state !! k).

(** [operator.add], the reducer annotated on [messages]. *)
Definition operator_add (old new : value) : value :=
  match old, new with
  | VList a, VList b => VList (a ++ b)
  | _, _ => new
  end.

(** How the graph runtime folds a node's partial update into the state:
    [messages] goes through its reducer, every other key is overwritten. *)
Definition merge_state (state update : GraphState) : GraphState :=
  let merged := update ∪ state in
  match update !! "messages", state !! "messages" with
  | Some new, Some old => <["messages" := operator_add old new]> merged
  | _, _ => merged
  end.

(** ** Setup *)

Definition AGENT_NAME : string := "data_visualization_agent".

Section Agent.

Context (E : collaborators).

Definition LOG_PATH : string := os_path_join E (os_getcwd E) "logs/".

(** [str(x)] / f-string interpolation. *)
Definition py_str (v : value) : string :=
  match v with
  | VStr s => s
  | _ => py_repr E v
  end.

(** [pd.DataFrame.from_dict(d)] and [pd.DataFrame(d)]. *)
Definition DataFrame_from_dict (v : value) : M value :=
  match v with
  | VDict d => ret (VDataFrame d)
  | VDataFrame d => ret (VDataFrame d)
  | _ => raise (AttributeError "from_dict")
  end.

(** One call of [chain.invoke(inputs)] on [prompt | llm]. *)
Definition llm_call (llm : value) (p : prompt) : M string :=
  λ w, let w' := World (S (llm_calls w)) (summary_calls w) (exec_calls w)
                       (review_calls w) (stdout w) (fs_log w) in
       (llm_invoke E llm (llm_calls w) p, w').

(** One call of the dataset summarizer. *)
Definition summarize (dfs : list value) (n_sample : value) : M (list string) :=
  λ w, (Ok (get_dataframe_summary E dfs n_sample),
        World (llm_calls w) (S (summary_calls w)) (exec_calls w)
              (review_calls w) (stdout w) (fs_log w)).

Definition lift {A} (r : result A) : M A := λ w, (r, w).

(** [os.makedirs(path)]: raises when the operating system refuses, and
    nothing is recorded as created then. *)
Definition makedirs (path : value) : M unit :=
  let* _ := lift (os_makedirs E path) in
  fs_record (MakeDirs path).

(** ** Nodes of the graph *)

Inductive node : Type :=
| N_chart_instructor
| N_human_review
| N_chart_generator
| N_execute_data_visualization_code
| N_fix_data_visualization_code
| N_explain_data_visualization_code
| N_END.

#[global] Instance node_eq_dec : EqDecision node.
Proof. solve_decision. Defined.

Definition node_name (n : node) : string :=
  match n with
  | N_chart_instructor => "chart_instructor"
  | N_human_review => "human_review"
  | N_chart_generator => "chart_generator"
  | N_execute_data_visualization_code => "execute_data_visualization_code"
  | N_fix_data_visualization_code => "fix_data_visualization_code"
  | N_explain_data_visualization_code => "explain_data_visualization_code"
  | N_END => "__end__"
  end.

(** [Command(goto=..., update=...)] *)
Record Command : Type := MkCommand {
  goto : node;
  update : GraphState;
}.

(** ** Node functions defined in the module

    The closures of [make_data_visualization_agent] take the variables they
    capture as leading arguments. *)

Definition recommended_steps_label : string :=
  nl ++ nl ++ "# Recommended Data Cleaning Steps:" ++ nl.

Definition chart_instructor (llm n_samples : value) (state : GraphState)
  : M GraphState :=
  let* _ := print (format_agent_name E AGENT_NAME) in
  let* _ := print "    * CREATE CHART GENERATOR INSTRUCTIONS" in
  let data_raw := get state "data_raw" in
  let* df := DataFrame_from_dict data_raw in
  let* all_datasets_summary := summarize [df] n_samples in
  let all_datasets_summary_str := join (nl ++ nl) all_datasets_summary in
  let* recommended_steps :=
    llm_call llm (Prompt recommend_steps_prompt
      [("user_instructions", get state "user_instructions");
       ("recommended_steps", get state "recommended_steps");
       ("all_datasets_summary", VStr all_datasets_summary_str)]) in
  ret ({[ "recommended_steps" :=
            VStr (recommended_steps_label ++ strip recommended_steps);
          "all_datasets_summary" := VStr all_datasets_summary_str ]}
       : GraphState).

(** Modelled from the spec: [log_ai_function] of
    [ai_data_science_team.tools.logging] is not part of the source tree.
    Section 6: persist(code_text, base_name, enabled, directory, overwrite)
    returns (path, final_name); when disabled it returns an empty path
    without touching the filesystem.  The choice of path and final name,
    including the uniquifying suffix when overwrite is off, is left to
    [log_target]. *)
Definition log_ai_function (response : string)
    (file_name log log_path overwrite : value) : M (value * value) :=
  if truthy log then
    let target := log_target E log_path file_name overwrite in
    let* _ := fs_record (SaveFile target.1 target.2 response) in
    ret target
  else ret (VNone, VNone).

Definition chart_generator
    (llm n_samples bypass_recommended_steps file_name log log_path overwrite
       : value)
    (state : GraphState) : M GraphState :=
  let* _ := print "    * CREATE DATA VISUALIZATION CODE" in
  let* inputs :=
    if truthy bypass_recommended_steps then
      let* _ := print (format_agent_name E AGENT_NAME) in
      let data_raw := get state "data_raw" in
      let* df := DataFrame_from_dict data_raw in
      let* all_datasets_summary := summarize [df] n_samples in
      let all_datasets_summary_str := join (nl ++ nl) all_datasets_summary in
      let chart_generator_instructions := get state "user_instructions" in
      ret (VStr all_datasets_summary_str, chart_generator_instructions)
    else
      let all_datasets_summary_str := get state "all_datasets_summary" in
      let chart_generator_instructions := get state "recommended_steps" in
      ret (all_datasets_summary_str, chart_generator_instructions) in
  let all_datasets_summary_str := inputs.1 in
  let chart_generator_instructions := inputs.2 in
  let* raw :=
    llm_call llm (Prompt prompt_template
      [("chart_generator_instructions", chart_generator_instructions);
       ("all_datasets_summary", all_datasets_summary_str)]) in
  let* response := lift (PythonOutputParser E raw) in
  let response := relocate_imports_inside_function E response in
  let response := add_comments_to_top E response AGENT_NAME in
  let* logged := log_ai_function response file_name log log_path overwrite in
  let file_path := logged.1 in
  let file_name_2 := logged.2 in
  ret ({[ "data_visualization_function" := VStr response;
          "data_visualization_function_path" := file_path;
          "data_visualization_function_name" := file_name_2;
          "all_datasets_summary" := all_datasets_summary_str ]}
       : GraphState).

(** ** Node templates

    [ai_data_science_team.templates] is imported by the module and is not
    part of the source tree. *)

Definition next_review : M nat :=
  λ w, (Ok (review_calls w),
        World (llm_calls w) (summary_calls w) (exec_calls w)
              (S (review_calls w)) (stdout w) (fs_log w)).

Definition next_exec : M nat :=
  λ w, (Ok (exec_calls w),
        World (llm_calls w) (summary_calls w) (S (exec_calls w))
              (review_calls w) (stdout w) (fs_log w)).

(** The verdict test of the human review. *)
Definition is_yes (verdict : string) : bool :=
  String.eqb (lower (strip verdict)) "yes".

(** Modelled from the spec: [node_func_human_review] is not part of the
    source tree.  Section 6: the human-review collaborator presents a text
    prompt and blocks for a textual verdict; yes (case-insensitive, trimmed)
    is the sole affirmative token; anything else is treated as replacement
    instructions.  Section 4.3: modification text is overwritten into
    user_instructions and the review routes back. *)
Definition node_func_human_review (state : GraphState) (prompt_text : string)
    (yes_goto no_goto : node)
    (user_instructions_key recommended_steps_key : string)
    (code_snippet_key : option string) : M Command :=
  let steps := get state recommended_steps_key in
  let code :=
    match code_snippet_key with
    | Some k => get state k
    | None => VNone
    end in
  let* n := next_review in
  let user_input := interrupt E n (ReviewRequest prompt_text steps code) in
  if is_yes user_input then ret (MkCommand yes_goto ∅)
  else ret (MkCommand no_goto {[ user_instructions_key := VStr user_input ]}).

(** Modelled from the spec: [node_func_execute_agent_code_on_data] is not
    part of the source tree.  Section 4.4: load the function by its fixed
    name from the generated source, invoke it with the dataset converted to
    tabular form, and capture either a structured artifact or an exception.
    On success the artifact is set and the error cleared; on failure the
    error is set to a prefixed diagnostic string and the artifact is left
    empty. *)
Definition node_func_execute_agent_code_on_data (state : GraphState)
    (data_key result_key error_key code_snippet_key : string)
    (agent_function_name : value)
    (pre_processing : value → M value)
    (error_message_prefix : string) : M GraphState :=
  let data := get state data_key in
  let agent_code := get state code_snippet_key in
  let* df := pre_processing data in
  let* n := next_exec in
  match run_agent_function E n (py_str agent_code) agent_function_name df with
  | Returned fig =>
      ret ({[ result_key := VDict fig; error_key := VNone ]} : GraphState)
  | Raised msg =>
      ret ({[ result_key := VNone;
              error_key := VStr (error_message_prefix ++ msg) ]}
           : GraphState)
  end.

(** The counter read by the repair stage and by the router. *)
Definition get_int (state : GraphState) (k : string) : M Z :=
  match get state k with
  | VInt z => ret z
  | _ => raise (TypeError k)
  end.

(** Modelled from the spec: [node_func_fix_agent_code] is not part of the
    source tree.  Section 4.5: invokes the model with a fixed prompt
    embedding the broken code and the last error, requesting a corrected
    single-function replacement under the same contract as 4.2; increments
    retry_count; re-persists the corrected code under the same file
    identity; routes back to the Execution Stage. *)
Definition node_func_fix_agent_code (state : GraphState)
    (code_snippet_key error_key : string) (llm : value)
    (prompt_template : template) (agent_name : string)
    (log file_path : value) : M GraphState :=
  let code_snippet := get state code_snippet_key in
  let error := get state error_key in
  let* raw :=
    llm_call llm (Prompt prompt_template
      [("code_snippet", code_snippet); ("error", error)]) in
  let* response := lift (PythonOutputParser E raw) in
  let response := relocate_imports_inside_function E response in
  let response := add_comments_to_top E response agent_name in
  let* _ :=
    if truthy log then fs_record (SaveFile file_path VNone response)
    else ret () in
  let* retry_count := get_int state "retry_count" in
  ret ({[ code_snippet_key := VStr response;
          "retry_count" := VInt (retry_count + 1) ]} : GraphState).

(** Modelled from the spec: [node_func_explain_agent_code] is not part of
    the source tree.  Section 4.6: if no error, invokes the model once and
    appends the prose summary to messages with a fixed prefix; if an error
    is present, emits a fixed failure message instead. *)
Definition node_func_explain_agent_code (state : GraphState)
    (code_snippet_key result_key error_key : string) (llm : value)
    (role : string) (explanation_prompt : template)
    (success_prefix error_message : string) : M GraphState :=
  if truthy (get state error_key) then
    ret ({[ result_key := VList [VMessage role error_message] ]} : GraphState)
  else
    let* explanation :=
      llm_call llm (Prompt explanation_prompt
        [("code", get state code_snippet_key)]) in
    ret ({[ result_key := VList [VMessage role (success_prefix ++ explanation)] ]}
         : GraphState).

(** ** The remaining node functions of the module *)

Definition prompt_text_human_review : string :=
  "Are the following data visualization instructions correct? (Answer 'yes' or provide modifications)"
  ++ nl ++ "{steps}".

(** The definition that is in force when the node table is built: the
    [if not bypass_explain_code] block rebinds the name in both branches. *)
Definition human_review (bypass_explain_code : value) (state : GraphState)
  : M Command :=
  if negb (truthy bypass_explain_code) then
    node_func_human_review state prompt_text_human_review
      N_explain_data_visualization_code N_chart_instructor
      "user_instructions" "recommended_steps"
      (Some "data_visualization_function")
  else
    node_func_human_review state prompt_text_human_review
      N_END N_chart_instructor
      "user_instructions" "recommended_steps"
      (Some "data_visualization_function").

Definition error_message_prefix : string :=
  "An error occurred during data visualization: ".

Definition execute_data_visualization_code (state : GraphState)
  : M GraphState :=
  node_func_execute_agent_code_on_data state
    "data_raw" "plotly_graph" "data_visualization_error"
    "data_visualization_function" (VStr "data_visualization")
    DataFrame_from_dict error_message_prefix.

Definition fix_data_visualization_code (llm log : value) (state : GraphState)
  : M GraphState :=
  node_func_fix_agent_code state
    "data_visualization_function" "data_visualization_error"
    llm fix_prompt AGENT_NAME log
    (get state "data_visualization_function_path").

Definition explain_data_visualization_code (llm : value) (state : GraphState)
  : M GraphState :=
  node_func_explain_agent_code state
    "data_visualization_function" "messages" "data_visualization_error"
    llm AGENT_NAME explanation_prompt_template
    ("# Data Visualization Agent:" ++ nl ++ nl ++ " ")
    "The Data Visualization Agent encountered an error during data visualization. No explanation could be provided.".

(** ** The compiled graph *)

(** The [node_functions] dict, one entry per node. *)
Record node_table : Type := NodeTable {
  nf_chart_instructor : GraphState → M GraphState;
  nf_human_review : GraphState → M Command;
  nf_chart_generator : GraphState → M GraphState;
  nf_execute_data_visualization_code : GraphState → M GraphState;
  nf_fix_data_visualization_code : GraphState → M GraphState;
  nf_explain_data_visualization_code : GraphState → M GraphState;
}.

Record graph : Type := Graph {
  node_functions : node_table;
  error_key : string;
  g_human_in_the_loop : bool;
  g_checkpointer : bool;
  g_bypass_recommended_steps : bool;
  g_bypass_explain_code : bool;
}.

(** Modelled from the spec: [create_coding_agent_graph] is not part of the
    source tree.  It records the node table and the three configuration
    flags from which the transition table is fixed at construction time
    (section 4.7). *)
Definition create_coding_agent_graph (nodes : node_table) (err_key : string)
    (human_in_the_loop : value) (checkpointer : bool)
    (bypass_recommended_steps bypass_explain_code : value) : graph :=
  Graph nodes err_key (truthy human_in_the_loop) checkpointer
        (truthy bypass_recommended_steps) (truthy bypass_explain_code).

(** Modelled from the spec: the initial state of the router.  Section 4.7:
    Instruction, unless Synthesis-bypass is configured, in which case
    Synthesis is initial. *)
Definition entry_point (g : graph) : node :=
  if g_bypass_recommended_steps g then N_chart_generator
  else N_chart_instructor.

(** Modelled from the spec: the guard of the Repair stage.  Section 4.5:
    entered only when last_error is non-empty after Execution and
    retry_count < max_retries. *)
Definition error_and_can_retry (g : graph) (state : GraphState) : bool :=
  truthy (get state (error_key g)) &&
  match get state "retry_count", get state "max_retries" with
  | VInt retry_count, VInt max_retries => retry_count <? max_retries
  | _, _ => false
  end.

(** Modelled from the spec: where the router goes once the Execution and
    Repair cycle is left.  The human review, when enabled, sits here: its
    affirmative exits are the Explanation stage or the terminal state
    (section 4.3), and it shows the generated code.  Otherwise Explanation
    if enabled, else the terminal state (section 4.7). *)
Definition after_execution (g : graph) : node :=
  if g_human_in_the_loop g then N_human_review
  else if g_bypass_explain_code g then N_END
  else N_explain_data_visualization_code.

(** Modelled from the spec: one transition of the router.  Each stage
    returns a partial update that is merged into the state before the next
    stage begins (sections 3 and 5); Instruction is followed by Synthesis,
    Synthesis by Execution, Repair by Execution, Explanation by the terminal
    state (sections 2 and 4). *)
Definition step (g : graph) (n : node) (state : GraphState)
  : M (node * GraphState) :=
  let nodes := node_functions g in
  match n with
  | N_chart_instructor =>
      let* u := nf_chart_instructor nodes state in
      ret (N_chart_generator, merge_state state u)
  | N_chart_generator =>
      let* u := nf_chart_generator nodes state in
      ret (N_execute_data_visualization_code, merge_state state u)
  | N_execute_data_visualization_code =>
      let* u := nf_execute_data_visualization_code nodes state in
      let state' := merge_state state u in
      if error_and_can_retry g state'
      then ret (N_fix_data_visualization_code, state')
      else ret (after_execution g, state')
  | N_fix_data_visualization_code =>
      let* u := nf_fix_data_visualization_code nodes state in
      ret (N_execute_data_visualization_code, merge_state state u)
  | N_human_review =>
      let* c := nf_human_review nodes state in
      ret (goto c, merge_state state (update c))
  | N_explain_data_visualization_code =>
      let* u := nf_explain_data_visualization_code nodes state in
      ret (N_END, merge_state state u)
  | N_END => ret (N_END, state)
  end.

(** How a run of the graph ends. *)
Inductive run_result : Type :=
| Finished (final : GraphState)
| Crashed (e : exn)
| OutOfFuel.

(** Stages run strictly one after the other until the terminal state. *)
Fixpoint run (g : graph) (fuel : nat) (n : node) (state : GraphState)
    (w : world) : run_result * world :=
  match n with
  | N_END => (Finished state, w)
  | _ =>
      match fuel with
      | O => (OutOfFuel, w)
      | S fuel' =>
          match step g n state w with
          | (Ok next, w') => run g fuel' next.1 next.2 w'
          | (Raise e, w') => (Crashed e, w')
          end
      end
  end.

(** [graph.invoke(inputs)]: the runtime stops a run that exceeds its step
    limit with an error of its own. *)
Definition invoke (g : graph) (recursion_limit : nat) (inputs : GraphState)
  : M GraphState :=
  λ w, match run g recursion_limit (entry_point g) inputs w with
       | (Finished final, w') => (Ok final, w')
       | (Crashed e, w') => (Raise e, w')
       | (OutOfFuel, w') => (Raise GraphRecursionError, w')
       end.

(** ** Agent *)

Record make_args : Type := MakeArgs {
  model : value;
  n_samples : value;
  log : value;
  log_path : value;
  file_name : value;
  overwrite : value;
  human_in_the_loop : value;
  bypass_recommended_steps : value;
  bypass_explain_code : value;
}.

Definition bypass_warning : string :=
  "Bypass recommended steps set to False to enable human in the loop.".

Definition make_data_visualization_agent (a : make_args) : M graph :=
  let llm := model a in
  (* Human in the loop requires recommended steps *)
  let* bypass_recommended_steps :=
    if truthy (bypass_recommended_steps a) && truthy (human_in_the_loop a)
    then
      let* _ := print bypass_warning in
      ret (VBool false)
    else ret (bypass_recommended_steps a) in
  (* Setup Log Directory *)
  let* log_path :=
    if truthy (log a) then
      let log_path :=
        match log_path a with
        | VNone => VStr LOG_PATH
        | other => other
        end in
      let* _ :=
        if negb (os_path_exists E log_path) then makedirs log_path
        else ret () in
      ret log_path
    else ret (log_path a) in
  let nodes :=
    NodeTable
      (chart_instructor llm (n_samples a))
      (human_review (bypass_explain_code a))
      (chart_generator llm (n_samples a) bypass_recommended_steps
         (file_name a) (log a) log_path (overwrite a))
      execute_data_visualization_code
      (fix_data_visualization_code llm (log a))
      (explain_data_visualization_code llm) in
  ret (create_coding_agent_graph nodes "data_visualization_error"
         (human_in_the_loop a) (truthy (human_in_the_loop a))
         bypass_recommended_steps (bypass_explain_code a)).

(** ** The [DataVisualizationAgent] class *)

(** What [self.response] can hold once assigned: the final state returned
    by [invoke], or the awaitable returned by [ainvoke]. *)
Inductive response_value : Type :=
| FinalState (final : GraphState)
| Coroutine (inputs : GraphState).

Record DataVisualizationAgent : Type := Agent {
  _params : gmap string value;
  _compiled_graph : graph;
  response : option response_value;
}.

(** A method mutates [self] and the world and returns or raises.  A method
    that returns either [None] or a response returns an [option]. *)
Definition method (A : Type) : Type :=
  DataVisualizationAgent → world → result A * DataVisualizationAgent * world.

Definition param_names : list string :=
  ["model"; "n_samples"; "log"; "log_path"; "file_name"; "overwrite";
   "human_in_the_loop"; "bypass_recommended_steps"; "bypass_explain_code"].

(** Binding a dict unpacked into keyword arguments against the signature of
    [make_data_visualization_agent], with its defaults. *)
Definition bind_keywords (params : gmap string value) : result make_args :=
  if bool_decide (dom params ⊆ (list_to_set param_names : gset string)) then
    match params !! "model" with
    | None => Raise (TypeError "missing 1 required positional argument: 'model'")
    | Some m =>
        Ok (MakeArgs m
              (get_default params "n_samples" (VInt 30))
              (get_default params "log" (VBool false))
              (get_default params "log_path" VNone)
              (get_default params "file_name" (VStr "data_visualization.py"))
              (get_default params "overwrite" (VBool true))
              (get_default params "human_in_the_loop" (VBool false))
              (get_default params "bypass_recommended_steps" (VBool false))
              (get_default params "bypass_explain_code" (VBool false)))
    end
  else Raise (TypeError "got an unexpected keyword argument").

Definition call_make_data_visualization_agent (params : gmap string value)
  : M graph :=
  let* a := lift (bind_keywords params) in
  make_data_visualization_agent a.

Definition params_of (a : make_args) : gmap string value :=
  {[ "model" := model a;
     "n_samples" := n_samples a;
     "log" := log a;
     "log_path" := log_path a;
     "file_name" := file_name a;
     "overwrite" := overwrite a;
     "human_in_the_loop" := human_in_the_loop a;
     "bypass_recommended_steps" := bypass_recommended_steps a;
     "bypass_explain_code" := bypass_explain_code a ]}.

(** [_make_compiled_graph]: resets the response, then builds the graph; when
    the build raises, the reset has already happened. *)
Definition _make_compiled_graph : method graph :=
  λ self w,
    let self' := Agent (_params self) (_compiled_graph self) None in
    let r := call_make_data_visualization_agent (_params self') w in
    (r.1, self', r.2).

Definition __init__ (a : make_args) : M DataVisualizationAgent :=
  let params := params_of a in
  let* g := call_make_data_visualization_agent params in
  ret (Agent params g None).

Definition update_params (kwargs : gmap string value) : method unit :=
  λ self w,
    (* Update parameters *)
    let params := map_fold (λ k v acc, <[k := v]> acc) (_params self) kwargs in
    let self1 := Agent params (_compiled_graph self) (response self) in
    (* Rebuild the compiled graph *)
    match _make_compiled_graph self1 w with
    | (Ok g, self2, w') =>
        (Ok (), Agent (_params self2) g (response self2), w')
    | (Raise e, self2, w') => (Raise e, self2, w')
    end.

(** [data_raw.to_dict()] *)
Definition to_dict (data_raw : value) : result value :=
  match data_raw with
  | VDataFrame d => Ok (VDict d)
  | _ => Raise (AttributeError "to_dict")
  end.

Definition invoke_inputs (user_instructions data : value)
    (max_retries retry_count : Z) : GraphState :=
  {[ "user_instructions" := user_instructions;
     "data_raw" := data;
     "max_retries" := VInt max_retries;
     "retry_count" := VInt retry_count ]}.

(** The awaitable is stored as it is; no stage runs. *)
Definition ainvoke_agent (data_raw user_instructions : value)
    (max_retries retry_count : Z) : method (option response_value) :=
  λ self w,
    match to_dict data_raw with
    | Raise e => (Raise e, self, w)
    | Ok data =>
        let response :=
          Coroutine (invoke_inputs user_instructions data max_retries
                       retry_count) in
        (Ok None, Agent (_params self) (_compiled_graph self) (Some response),
         w)
    end.

(** [recursion_limit] stands for what the keyword arguments forwarded to
    [invoke] configure. *)
Definition invoke_agent (data_raw user_instructions : value)
    (max_retries retry_count : Z) (recursion_limit : nat)
  : method (option response_value) :=
  λ self w,
    match to_dict data_raw with
    | Raise e => (Raise e, self, w)
    | Ok data =>
        match invoke (_compiled_graph self) recursion_limit
                (invoke_inputs user_instructions data max_retries retry_count)
                w with
        | (Ok response, w') =>
            (Ok None,
             Agent (_params self) (_compiled_graph self)
                   (Some (FinalState response)), w')
        | (Raise e, w') => (Raise e, self, w')
        end
    end.

(** [if self.response:] *)
Definition response_truthy (self : DataVisualizationAgent) : bool :=
  match response self with
  | None => false
  | Some (FinalState final) => negb (bool_decide (final = ∅))
  | Some (Coroutine _) => true
  end.

(** [self.response.get(key, default)] *)
Definition response_get (self : DataVisualizationAgent) (key : string)
    (d : value) : result value :=
  match response self with
  | Some (FinalState final) => Ok (get_default final key d)
  | Some (Coroutine _) => Raise (AttributeError "get")
  | None => Raise (AttributeError "get")
  end.

Definition explain_visualization_steps (self : DataVisualizationAgent)
  : result value :=
  if response_truthy self then response_get self "messages" (VList [])
  else Ok (VList []).

Definition get_log_summary (markdown : bool) (self : DataVisualizationAgent)
  : result value :=
  if response_truthy self then
    match response_get self "data_visualization_function_path" VNone with
    | Raise e => Raise e
    | Ok path =>
        if truthy path then
          let log_details := "Log Path: " ++ py_str path in
          if markdown then Ok (VMarkdown log_details)
          else Ok (VStr log_details)
        else Ok VNone
    end
  else Ok VNone.

Definition get_plotly_graph (self : DataVisualizationAgent) : result value :=
  if response_truthy self then
    match response_get self "plotly_graph" VNone with
    | Raise e => Raise e
    | Ok fig => Ok (plotly_from_dict E fig)
    end
  else Ok VNone.

Definition get_data_raw (self : DataVisualizationAgent) : result value :=
  if response_truthy self then
    match response_get self "data_raw" VNone with
    | Raise e => Raise e
    | Ok data =>
        if truthy data then
          match data with
          | VDict d => Ok (VDataFrame d)
          | VDataFrame d => Ok (VDataFrame d)
          | _ => Raise (TypeError "DataFrame constructor not properly called")
          end
        else Ok VNone
    end
  else Ok VNone.

Definition get_data_visualization_function (markdown : bool)
    (self : DataVisualizationAgent) : result value :=
  if response_truthy self then
    match response_get self "data_visualization_function" (VStr EmptyString) with
    | Raise e => Raise e
    | Ok func_code =>
        if markdown then
          Ok (VMarkdown ("```python" ++ nl ++ py_str func_code ++ nl ++ "```"))
        else Ok func_code
    end
  else Ok VNone.

Definition get_recommended_visualization_steps (markdown : bool)
    (self : DataVisualizationAgent) : result value :=
  if response_truthy self then
    match response_get self "recommended_steps" (VStr EmptyString) with
    | Raise e => Raise e
    | Ok steps =>
        if markdown then Ok (VMarkdown (py_str steps)) else Ok steps
    end
  else Ok VNone.

Definition get_response (self : DataVisualizationAgent)
  : option response_value :=
  response self.

End Agent.

(** * Vocabulary of the properties *)

(** ** Strings and fields *)

Fixpoint all_space (s : string) : bool :=
  match s with
  | EmptyString => true
  | String c r => is_space c && all_space r
  end.

(** A verdict is affirmative when it is the word yes, each letter in
    either case, with nothing but whitespace before and after it. *)
Definition affirmative (verdict : string) : Prop :=
  ∃ (l r : string) (y e s : ascii),
    all_space l = true ∧ all_space r = true ∧
    (y = "y" ∨ y = "Y")%char ∧ (e = "e" ∨ e = "E")%char ∧
    (s = "s" ∨ s = "S")%char ∧
    verdict = l ++ String y (String e (String s EmptyString)) ++ r.

(** An outcome field is populated when it holds anything but [None]. *)
Definition populated (v : value) : bool :=
  match v with
  | VNone => false
  | _ => true
  end.

Definition empty_or_absent (field : option value) : Prop :=
  field = None ∨ field = Some VNone ∨ field = Some (VStr EmptyString).

(** ** Closed forms of the source *)

(** What the human is shown at the review. *)
Definition review_request_of (state : GraphState) : review_request :=
  ReviewRequest prompt_text_human_review
    (get state "recommended_steps")
    (get state "data_visualization_function").

(** The prompt the Instruction stage sends; the previous recommendation
    enters only here. *)
Definition instructor_prompt (E : collaborators) (n_samples : value)
    (state : GraphState) (d : list (string * value)) : prompt :=
  Prompt recommend_steps_prompt
    [("user_instructions", get state "user_instructions");
     ("recommended_steps", get state "recommended_steps");
     ("all_datasets_summary",
      VStr (join (nl ++ nl)
              (get_dataframe_summary E [VDataFrame d] n_samples)))].

Definition fresh_summary (E : collaborators) (n_samples : value)
    (d : list (string * value)) : value :=
  VStr (join (nl ++ nl) (get_dataframe_summary E [VDataFrame d] n_samples)).


(** The assignment loop of [update_params]. *)
Definition assign_all (params kwargs : gmap string value)
  : gmap string value :=
  map_fold (λ k v acc, <[k := v]> acc) params kwargs.

(** The value of [bypass_recommended_steps] after the reconciliation. *)
Definition reconciled_bypass (a : make_args) : value :=
  if truthy (bypass_recommended_steps a) && truthy (human_in_the_loop a)
  then VBool false else bypass_recommended_steps a.

(** The value of [log_path] after the log directory setup. *)
Definition effective_log_path (E : collaborators) (a : make_args) : value :=
  if truthy (log a) then
    match log_path a with
    | VNone => VStr (LOG_PATH E)
    | other => other
    end
  else log_path a.

Definition built_graph (E : collaborators) (a : make_args) : graph :=
  create_coding_agent_graph
    (NodeTable
       (chart_instructor E (model a) (n_samples a))
       (human_review E (bypass_explain_code a))
       (chart_generator E (model a) (n_samples a) (reconciled_bypass a)
          (file_name a) (log a) (effective_log_path E a) (overwrite a))
       (execute_data_visualization_code E)
       (fix_data_visualization_code E (model a) (log a))
       (explain_data_visualization_code E (model a)))
    "data_visualization_error"
    (human_in_the_loop a) (truthy (human_in_the_loop a))
    (reconciled_bypass a) (bypass_explain_code a).

Definition built_world (E : collaborators) (a : make_args) (w : world)
  : world :=
  World (llm_calls w) (summary_calls w) (exec_calls w) (review_calls w)
    (if truthy (bypass_recommended_steps a) && truthy (human_in_the_loop a)
     then stdout w ++ [bypass_warning] else stdout w)
    (if truthy (log a) && negb (os_path_exists E (effective_log_path E a))
     then fs_log w ++ [MakeDirs (effective_log_path E a)] else fs_log w).

(** The exception of the log directory setup, if there is one. *)
Definition directory_error (E : collaborators) (a : make_args) : option exn :=
  if truthy (log a) && negb (os_path_exists E (effective_log_path E a)) then
    match os_makedirs E (effective_log_path E a) with
    | Ok _ => None
    | Raise e => Some e
    end
  else None.

(** The world after a construction that raised in the log directory
    setup: only the warning may have been printed. *)
Definition warned_world (a : make_args) (w : world) : world :=
  World (llm_calls w) (summary_calls w) (exec_calls w) (review_calls w)
    (if truthy (bypass_recommended_steps a) && truthy (human_in_the_loop a)
     then stdout w ++ [bypass_warning] else stdout w)
    (fs_log w).

(** ** Runs *)

Definition config : Type := node * GraphState * world.

(** [reaches g c c']: the router can get from [c] to [c'] by completed
    stages. *)
Inductive reaches (g : graph) : config → config → Prop :=
| reaches_here (c : config) : reaches g c c
| reaches_next (n n' : node) (s s' : GraphState) (w w' : world) (c : config) :
    n ≠ N_END →
    step g n s w = (Ok (n', s'), w') →
    reaches g (n', s', w') c →
    reaches g (n, s, w) c.


Definition is_ok {A} (r : result A) : bool :=
  match r with
  | Ok _ => true
  | Raise _ => false
  end.




(** ** Concrete collaborators

    A model that always answers [answer], a human who always answers
    [verdict], generated code that always ends in [program], and an empty
    filesystem. *)

Definition collaborators_with (answer : string) (review : nat → string)
    (program : outcome) : collaborators :=
  Collaborators
    (λ _ _ _, Ok answer)
    (λ raw, Ok raw)
    (λ code, code)
    (λ code _, code)
    (λ name, name)
    (λ _ _, ["rows: 2"])
    (λ fig, fig)
    (λ _, "object")
    (λ _ _ _ _, program)
    (λ n _, review n)
    "/home/user"
    (λ a b, a +:+ "/" +:+ b)
    (λ _, false)
    (λ _, Ok ())
    (λ dir name _, (dir, name)).

Definition demo_collaborators (answer verdict : string) (program : outcome)
  : collaborators :=
  collaborators_with answer (λ _, verdict) program.

Definition demo_table : list (string * value) :=
  [("age", VList [VInt 31; VInt 47]); ("charges", VList [VInt 20; VInt 85])].

Definition demo_figure : list (string * value) :=
  [("data", VList []); ("layout", VDict [])].

Definition failing_collaborators : collaborators :=
  demo_collaborators "code" "yes" (Raised "name 'px' is not defined").

Definition stale_state : GraphState :=
  {[ "data_raw" := VDict demo_table; "plotly_graph" := VDict demo_figure ]}.

Definition shouting_human : collaborators :=
  demo_collaborators "code" ("  YES " ++ nl) (Returned demo_figure).


Definition terse_model : collaborators :=
  demo_collaborators "Bar" "no" (Returned demo_figure).

Definition earlier_steps : string :=
  recommended_steps_label ++ "Use a scatter plot of age against charges.".

Definition revisited_state : GraphState :=
  {[ "data_raw" := VDict demo_table;
     "user_instructions" := VStr "no";
     "recommended_steps" := VStr earlier_steps;
     "all_datasets_summary" := VStr "rows: 2" ]}.

Definition happy_collaborators : collaborators :=
  demo_collaborators "code" "yes" (Returned demo_figure).

Definition default_args : make_args :=
  MakeArgs (VModel 0) (VInt 30) (VBool false) VNone
    (VStr "data_visualization.py") (VBool true) (VBool false) (VBool false)
    (VBool false).

Definition demo_agent : DataVisualizationAgent :=
  Agent (params_of default_args)
    (built_graph happy_collaborators default_args) None.

Definition demo_inputs : GraphState :=
  invoke_inputs (VStr "Plot age against charges.") (VDict demo_table) 3 0.

Definition answered_agent : DataVisualizationAgent :=
  Agent (params_of default_args)
    (built_graph happy_collaborators default_args)
    (Some (FinalState demo_inputs)).

Definition logging_kwargs : gmap string value :=
  {[ "log" := VBool true; "bypass_explain_code" := VBool true ]}.

Definition two_retries_inputs : GraphState :=
  invoke_inputs (VStr "Plot age against charges.") (VDict demo_table) 2 0.

(** A human who asks for a change once and then approves, with generated
    code that always fails. *)
Definition rejecting_once : collaborators :=
  collaborators_with "code"
    (λ n, match n with
          | O => "Use a line chart instead."
          | S _ => "yes"
          end)
    (Raised "name 'px' is not defined").



(** ** Parameters of the agent *)

(** The names [make_data_visualization_agent] accepts as keywords. *)
Definition parameter_set : gset string := list_to_set param_names.

(** The error of a call with a keyword outside the signature. *)
Definition unexpected_keyword : exn :=
  TypeError "got an unexpected keyword argument".

(** The prompt of the Synthesis stage on its normal path. *)
Definition generator_prompt (state : GraphState) : prompt :=
  Prompt prompt_template
    [("chart_generator_instructions", get state "recommended_steps");
     ("all_datasets_summary", get state "all_datasets_summary")].

(** Further concrete inputs. *)


(** A filesystem on which no directory can be created. *)
Definition readonly_disk : collaborators :=
  Collaborators
    (λ _ _ _, Ok "code")
    (λ raw, Ok raw) (λ code, code) (λ code _, code) (λ name, name)
    (λ _ _, ["rows: 2"]) (λ fig, fig) (λ _, "object")
    (λ _ _ _ _, Returned demo_figure) (λ _ _, "yes")
    "/home/user" (λ a b, a +:+ "/" +:+ b) (λ _, false)
    (λ _, Raise (OSError "No such file or directory"))
    (λ dir name _, (dir, name)).

Definition conflicting_logging_args : make_args :=
  MakeArgs (VModel 0) (VInt 30) (VBool true) (VStr EmptyString)
    (VStr "data_visualization.py") (VBool true) (VBool true) (VBool true)
    (VBool false).

(** An agent on the filesystem that refuses directories, after a completed
    invocation; it was constructed with logging off. *)
Definition readonly_agent : DataVisualizationAgent :=
  Agent (params_of default_args) (built_graph readonly_disk default_args)
    (Some (FinalState demo_inputs)).

(** [default_args] with logging on and the explanation bypassed. *)
Definition logging_args : make_args :=
  MakeArgs (VModel 0) (VInt 30) (VBool true) VNone
    (VStr "data_visualization.py") (VBool true) (VBool false) (VBool false)
    (VBool true).

Definition enable_logging_kwargs : gmap string value :=
  {[ "log" := VBool true; "log_path" := VStr EmptyString ]}.

Definition unreachable_model : collaborators :=
  Collaborators
    (λ _ _ _, Raise (ModelError "connection refused"))
    (λ raw, Ok raw) (λ code, code) (λ code _, code) (λ name, name)
    (λ _ _, ["rows: 2"]) (λ fig, fig) (λ _, "object")
    (λ _ _ _ _, Returned demo_figure) (λ _ _, "yes")
    "/home/user" (λ a b, a +:+ "/" +:+ b) (λ _, false) (λ _, Ok ())
    (λ dir name _, (dir, name)).

Definition silent_model : collaborators :=
  demo_collaborators ("  " ++ nl) "yes" (Returned demo_figure).

Definition logged_agent : DataVisualizationAgent :=
  Agent (params_of default_args)
    (built_graph happy_collaborators default_args)
    (Some (FinalState
             {[ "data_visualization_function_path" :=
                  VStr "logs/data_visualization.py" ]})).

(** ** Proof automation *)

(** Unfolds the monad and the primitive effects. *)
Ltac unfold_effects :=
  unfold bind, ret, raise, lift, print, fs_record, summarize, llm_call,
    next_exec, next_review, get_int, DataFrame_from_dict, log_ai_function,
    makedirs in *.

(** Splits on the next test or collaborator answer in the goal. *)
Ltac split_on_match :=
  match goal with
  | |- context [if ?b then _ else _] => destruct b eqn:?
  | |- context [match ?r with Ok _ => _ | Raise _ => _ end] =>
      destruct r eqn:?
  | |- context [match ?v with VNone => _ | _ => _ end] => destruct v eqn:?
  end.

Ltac pair_inversion :=
  repeat match goal with
         | H : (_, _) = (_, _) |- _ => injection H as <- <-
         | H : Ok _ = Ok _ |- _ => injection H as <-
         | H : Raise _ = Ok _ |- _ => discriminate H
         end.

Ltac node_cases :=
  unfold_effects; simpl; repeat (split_on_match; simpl).

(** * Properties *)

Set Warnings "-clear-no-such-hyp".

(** ** Strings *)

#[local] Arguments String.append !_ _ / : simpl nomatch.

Lemma string_app_nil_r (s : string) : s ++ EmptyString = s.
Proof. induction s as [|c s IH]; simpl; [done | by rewrite IH]. Qed.

Lemma string_app_assoc (a b c : string) : (a ++ b) ++ c = a ++ (b ++ c).
Proof. induction a as [|x a IH]; simpl; [done | by rewrite IH]. Qed.

Lemma string_app_length (a b : string) :
  String.length (a ++ b) = (String.length a + String.length b)%nat.
Proof. induction a as [|x a IH]; simpl; [done | by rewrite IH]. Qed.

Lemma string_rev_onto_app (s acc : string) :
  string_rev_onto s acc = string_rev_onto s EmptyString ++ acc.
Proof.
  revert acc. induction s as [|c s IH]; intros acc; simpl; [done|].
  rewrite (IH (String c EmptyString)), (IH (String c acc)).
  by rewrite string_app_assoc.
Qed.

Lemma string_rev_onto_append (a b acc : string) :
  string_rev_onto (a ++ b) acc = string_rev_onto b (string_rev_onto a acc).
Proof. revert acc. induction a as [|c a IH]; intros acc; simpl; auto. Qed.

Lemma string_rev_app (a b : string) :
  string_rev (a ++ b) = string_rev b ++ string_rev a.
Proof.
  unfold string_rev.
  by rewrite string_rev_onto_append, string_rev_onto_app.
Qed.

Lemma string_rev_involutive (s : string) : string_rev (string_rev s) = s.
Proof.
  induction s as [|c s IH]; [done|].
  change (String c s) with (String c EmptyString ++ s).
  rewrite string_rev_app, string_rev_app, IH. done.
Qed.

Lemma all_space_rev (s : string) : all_space (string_rev s) = all_space s.
Proof.
  assert (Happ : ∀ a b, all_space (a ++ b) = all_space a && all_space b).
  { induction a as [|c a IH]; intros b; simpl; [done|].
    by rewrite IH, andb_assoc. }
  induction s as [|c s IH]; [done|].
  change (String c s) with (String c EmptyString ++ s).
  rewrite string_rev_app, Happ, IH. simpl.
  rewrite andb_true_r. apply andb_comm.
Qed.

Lemma lstrip_spaces_app (pad s : string) :
  all_space pad = true → lstrip (pad ++ s) = lstrip s.
Proof.
  induction pad as [|c pad IH]; simpl; [done|].
  intros [Hc Hpad]%andb_true_iff. rewrite Hc. auto.
Qed.

Lemma rstrip_app_spaces (s pad : string) :
  all_space pad = true → rstrip (s ++ pad) = rstrip s.
Proof.
  intros Hpad. unfold rstrip.
  rewrite string_rev_app, lstrip_spaces_app; [done|].
  by rewrite all_space_rev.
Qed.

Lemma lower_char_yes (y e s : ascii) :
  lower_char y = "y"%char → lower_char e = "e"%char →
  lower_char s = "s"%char →
  is_space y = false ∧ is_space s = false ∧
  lower (String y (String e (String s EmptyString))) = "yes".
Proof.
  intros Hy He Hs. simpl. rewrite Hy, He, Hs. split_and!; [| |done].
  - destruct y as [[] [] [] [] [] [] [] []]; vm_compute in Hy |- *;
      congruence.
  - destruct s as [[] [] [] [] [] [] [] []]; vm_compute in Hs |- *;
      congruence.
Qed.

(** A verdict that is the word yes in any letter case, surrounded by any
    whitespace, passes the verdict test. *)
Lemma is_yes_padded (l r : string) (y e s : ascii) :
  all_space l = true → all_space r = true →
  lower_char y = "y"%char → lower_char e = "e"%char →
  lower_char s = "s"%char →
  is_yes (l ++ String y (String e (String s EmptyString)) ++ r) = true.
Proof.
  intros Hl Hr Hy He Hs.
  destruct (lower_char_yes y e s Hy He Hs) as (Hys & Hss & Hlow).
  unfold is_yes, strip.
  rewrite lstrip_spaces_app by done.
  assert (Hcore : lstrip (String y (String e (String s EmptyString)) ++ r)
                  = String y (String e (String s EmptyString)) ++ r).
  { simpl. by rewrite Hys. }
  rewrite Hcore, rstrip_app_spaces by done.
  assert (Hr' : rstrip (String y (String e (String s EmptyString)))
                = String y (String e (String s EmptyString))).
  { unfold rstrip. cbn. rewrite Hss. done. }
  rewrite Hr', Hlow. done.
Qed.

Example is_yes_mixed : is_yes ("  YeS " ++ nl) = true.
Proof. reflexivity. Qed.

Example is_yes_other : is_yes "yes, but use a line chart" = false.
Proof. reflexivity. Qed.

Lemma lstrip_decompose (s : string) :
  ∃ l, all_space l = true ∧ s = l ++ lstrip s.
Proof.
  induction s as [|c s (l & Hl & IH)]; [by exists EmptyString|].
  simpl. destruct (is_space c) eqn:Hc; [|by exists EmptyString].
  exists (String c l). simpl. rewrite Hc, Hl. split; [done|].
  by rewrite <- IH.
Qed.

Lemma rstrip_decompose (s : string) :
  ∃ r, all_space r = true ∧ s = rstrip s ++ r.
Proof.
  destruct (lstrip_decompose (string_rev s)) as (l & Hl & Hs).
  exists (string_rev l). split; [by rewrite all_space_rev|].
  unfold rstrip. rewrite <- string_rev_app, <- Hs.
  by rewrite string_rev_involutive.
Qed.

(** [strip] removes whitespace at both ends and nothing else. *)
Lemma strip_decompose (s : string) :
  ∃ l r, all_space l = true ∧ all_space r = true ∧ s = l ++ strip s ++ r.
Proof.
  destruct (lstrip_decompose s) as (l & Hl & Hs).
  destruct (rstrip_decompose (lstrip s)) as (r & Hr & Hs').
  exists l, r. split; [exact Hl|]. split; [exact Hr|].
  unfold strip. by rewrite <- Hs', <- Hs.
Qed.

Lemma lower_char_letter_inv (c : ascii) :
  (lower_char c = "y" → c = "y" ∨ c = "Y")%char ∧
  (lower_char c = "e" → c = "e" ∨ c = "E")%char ∧
  (lower_char c = "s" → c = "s" ∨ c = "S")%char.
Proof.
  destruct c as [[] [] [] [] [] [] [] []]; vm_compute;
    split_and!; intros H; first [discriminate H | by left | by right].
Qed.

Lemma lower_yes_inv (t : string) :
  lower t = "yes" →
  ∃ y e s, t = String y (String e (String s EmptyString)) ∧
           lower_char y = "y"%char ∧ lower_char e = "e"%char ∧
           lower_char s = "s"%char.
Proof.
  destruct t as [|y [|e [|s [|x t]]]]; simpl; try discriminate.
  intros [= Hy He Hs]. by exists y, e, s.
Qed.

(** The verdict test accepts exactly the affirmative verdicts. *)
Lemma is_yes_affirmative (verdict : string) :
  is_yes verdict = true ↔ affirmative verdict.
Proof.
  split.
  - unfold is_yes. intros Hyes%String.eqb_eq.
    destruct (strip_decompose verdict) as (l & r & Hl & Hr & Hv).
    destruct (lower_yes_inv _ Hyes) as (y & e & s & Hcore & Hy & He & Hs).
    exists l, r, y, e, s. rewrite Hcore in Hv.
    split; [exact Hl|]. split; [exact Hr|].
    split; [by apply lower_char_letter_inv|].
    split; [by apply lower_char_letter_inv|].
    split; [by apply lower_char_letter_inv | exact Hv].
  - intros (l & r & y & e & s & Hl & Hr & Hy & He & Hs & ->).
    apply is_yes_padded; [exact Hl | exact Hr | | |].
    + by destruct Hy as [-> | ->].
    + by destruct He as [-> | ->].
    + by destruct Hs as [-> | ->].
Qed.

(** ** Merging updates *)

Lemma lookup_merge_state_ne (state u : GraphState) (k : string) :
  k ≠ "messages" → merge_state state u !! k = (u ∪ state) !! k.
Proof.
  intros Hk. unfold merge_state.
  destruct (u !! "messages"); [|done].
  destruct (state !! "messages"); [|done].
  by rewrite lookup_insert_ne.
Qed.

Lemma lookup_merge_state_set (state u : GraphState) (k : string) (v : value) :
  k ≠ "messages" → u !! k = Some v → merge_state state u !! k = Some v.
Proof.
  intros Hk Hu. rewrite lookup_merge_state_ne by done.
  by apply lookup_union_Some_l.
Qed.

Lemma lookup_merge_state_frame (state u : GraphState) (k : string) :
  u !! k = None → merge_state state u !! k = state !! k.
Proof.
  intros Hu. unfold merge_state.
  destruct (u !! "messages") eqn:Hm; [|by apply lookup_union_r].
  destruct (state !! "messages"); [|by apply lookup_union_r].
  rewrite lookup_insert_ne by congruence.
  by apply lookup_union_r.
Qed.

Lemma merge_state_empty (state : GraphState) : merge_state state ∅ = state.
Proof.
  unfold merge_state. rewrite lookup_empty. apply (left_id_L ∅ (∪)).
Qed.

Lemma get_merge_state_frame (state u : GraphState) (k : string) :
  u !! k = None → get (merge_state state u) k = get state k.
Proof. intros Hu. unfold get. by rewrite lookup_merge_state_frame. Qed.

(** ** Accessors before any invocation *)

(** C9. When no invocation has completed, i.e. [self.response] is [None],
    every accessor returns its empty default and none raises:
    [get_plotly_graph], [get_data_raw], [get_data_visualization_function],
    [get_recommended_visualization_steps], [get_log_summary] and
    [get_response] return [None], and [explain_visualization_steps] returns
    the empty list. *)
Theorem accessors_default_without_response
    (E : collaborators) (params : gmap string value) (g : graph)
    (markdown : bool) :
  let self := Agent params g None in
  get_plotly_graph E self = Ok VNone ∧
  get_data_raw self = Ok VNone ∧
  get_data_visualization_function E markdown self = Ok VNone ∧
  get_recommended_visualization_steps E markdown self = Ok VNone ∧
  get_log_summary E markdown self = Ok VNone ∧
  get_response self = None ∧
  explain_visualization_steps self = Ok (VList []).
Proof. by repeat split. Qed.

(** ** The Execution stage *)


(** C3. After every Execution pass exactly one of the two outcome fields is
    populated.  When the generated function returns a chart, [plotly_graph]
    holds it and [data_visualization_error] is cleared; when it raises,
    [data_visualization_error] is the non-empty diagnostic that begins with
    the prefix [An error occurred during data visualization: ] and
    [plotly_graph] is empty.  This holds whatever the two fields held before
    the pass. *)
Theorem execute_populates_exactly_one
    (E : collaborators) (state : GraphState) (d : list (string * value))
    (w : world) :
  state !! "data_raw" = Some (VDict d) →
  ∃ u w',
    execute_data_visualization_code E state w = (Ok u, w') ∧
    exec_calls w' = S (exec_calls w) ∧
    let state' := merge_state state u in
    let graph_field := get state' "plotly_graph" in
    let error_field := get state' "data_visualization_error" in
    xorb (populated graph_field) (populated error_field) = true ∧
    match run_agent_function E (exec_calls w)
            (py_str E (get state "data_visualization_function"))
            (VStr "data_visualization") (VDataFrame d) with
    | Returned fig =>
        graph_field = VDict fig ∧ error_field = VNone
    | Raised msg =>
        graph_field = VNone ∧
        error_field = VStr (error_message_prefix ++ msg) ∧
        starts_with error_message_prefix (error_message_prefix ++ msg) ∧
        truthy error_field = true
    end.
Proof.
  intros Hdata.
  unfold execute_data_visualization_code,
    node_func_execute_agent_code_on_data, bind, next_exec, get.
  rewrite Hdata. simpl.
  destruct (run_agent_function E _ _ _ _) as [fig|msg]; simpl.
  - eexists _, _. split; [done|]. split; [done|].
    erewrite !lookup_merge_state_set by done.
    done.
  - eexists _, _. split; [done|]. split; [done|].
    erewrite !lookup_merge_state_set by done.
    simpl. split_and!; try done. by exists msg.
Qed.

Lemma execute_populates_exactly_one_witness :
  ∃ u w',
    execute_data_visualization_code failing_collaborators stale_state world0
    = (Ok u, w') ∧
    get (merge_state stale_state u) "plotly_graph" = VNone.
Proof.
  destruct (execute_populates_exactly_one failing_collaborators stale_state
              demo_table world0)
    as (u & w' & Hrun & _ & _ & Hcase).
  { reflexivity. }
  exists u, w'. split; [exact Hrun|]. simpl in Hcase. apply Hcase.
Defined.

(** ** The human review *)

(** C4. At the human review an affirmative verdict, the word yes in any
    letter case and with surrounding whitespace, routes forward: to
    [explain_data_visualization_code] when explanation is enabled and to
    [__end__] when it is disabled, leaving the state as it was.  Any other
    text is written into [user_instructions], and nothing else is updated,
    and the review returns to [chart_instructor]. *)
Theorem human_review_routes_on_verdict
    (E : collaborators) (bypass_explain_code : value) (state : GraphState)
    (w : world) :
  let verdict := interrupt E (review_calls w) (review_request_of state) in
  ∃ c w',
    human_review E bypass_explain_code state w = (Ok c, w') ∧
    (affirmative verdict →
       goto c = (if truthy bypass_explain_code then N_END
                 else N_explain_data_visualization_code) ∧
       merge_state state (update c) = state) ∧
    (¬ affirmative verdict →
       goto c = N_chart_instructor ∧
       update c = {[ "user_instructions" := VStr verdict ]} ∧
       merge_state state (update c) !! "user_instructions"
       = Some (VStr verdict)).
Proof.
  intros verdict.
  pose proof (is_yes_affirmative verdict) as Htest.
  unfold human_review, node_func_human_review, bind, next_review, ret.
  fold (review_request_of state). fold verdict.
  destruct (truthy bypass_explain_code); simpl;
    fold (review_request_of state); fold verdict;
    destruct (is_yes verdict) eqn:Hyes; simpl;
    eexists _, _; (split; [reflexivity|]); simpl;
    (split; intros Hv);
    try (by destruct Hv; apply Htest);
    try (by apply Htest in Hv);
    (split; [reflexivity|]);
    first [ apply merge_state_empty
          | split; [reflexivity|];
            by apply lookup_merge_state_set; [|apply lookup_singleton_eq] ].
Qed.

Lemma human_review_routes_on_verdict_witness :
  (∃ c w',
     human_review shouting_human (VBool false) stale_state world0
     = (Ok c, w') ∧
     goto c = N_explain_data_visualization_code) ∧
  (∃ c w',
     human_review rejecting_once (VBool false) stale_state world0
     = (Ok c, w') ∧
     goto c = N_chart_instructor ∧
     update c = {[ "user_instructions" := VStr "Use a line chart instead." ]}).
Proof.
  split.
  - destruct (human_review_routes_on_verdict shouting_human (VBool false)
                stale_state world0)
      as (c & w' & Hrun & Hyes & _).
    exists c, w'. split; [exact Hrun|].
    apply Hyes. by apply is_yes_affirmative.
  - destruct (human_review_routes_on_verdict rejecting_once (VBool false)
                stale_state world0)
      as (c & w' & Hrun & _ & Hno).
    exists c, w'. split; [exact Hrun|].
    destruct Hno as (Hgoto & Hupdate & _); [|by split].
    intros Hv%is_yes_affirmative. discriminate Hv.
Defined.

(** ** The constructed graph in closed form *)

Lemma make_data_visualization_agent_outcome
    (E : collaborators) (a : make_args) (w : world) :
  make_data_visualization_agent E a w
  = match directory_error E a with
    | None => (Ok (built_graph E a), built_world E a w)
    | Some e => (Raise e, warned_world a w)
    end.
Proof.
  unfold make_data_visualization_agent, directory_error, built_graph,
    built_world, warned_world, reconciled_bypass, effective_log_path,
    makedirs, bind, ret, lift, print, fs_record.
  destruct w as [? ? ? ? ? ?]; simpl.
  destruct (truthy (bypass_recommended_steps a) &&
            truthy (human_in_the_loop a)); simpl;
    destruct (truthy (log a)); simpl; try reflexivity;
    destruct (os_path_exists E _); simpl; try reflexivity;
    destruct (os_makedirs E _); reflexivity.
Qed.

Lemma directory_error_no_log (E : collaborators) (a : make_args) :
  truthy (log a) = false → directory_error E a = None.
Proof. intros Hlog. unfold directory_error. by rewrite Hlog. Qed.

Lemma make_data_visualization_agent_closed_form
    (E : collaborators) (a : make_args) (w : world) :
  directory_error E a = None →
  make_data_visualization_agent E a w
  = (Ok (built_graph E a), built_world E a w).
Proof.
  intros Hdir. by rewrite make_data_visualization_agent_outcome, Hdir.
Qed.


Lemma bind_keywords_params_of (a : make_args) :
  bind_keywords (params_of a) = Ok a.
Proof.
  unfold bind_keywords.
  assert (Hdom : bool_decide
            (dom (params_of a) ⊆ (list_to_set param_names : gset string))
          = true).
  { apply bool_decide_eq_true. unfold params_of, param_names. set_solver. }
  rewrite Hdom. by destruct a.
Qed.

Lemma lookup_assign_all (params kwargs : gmap string value) (k : string) :
  assign_all params kwargs !! k
  = match kwargs !! k with
    | Some v => Some v
    | None => params !! k
    end.
Proof.
  unfold assign_all.
  apply (map_fold_weak_ind
           (λ acc (m : gmap string value),
              acc !! k = match m !! k with
                         | Some v => Some v
                         | None => params !! k
                         end)).
  - by rewrite lookup_empty.
  - intros i x m acc Hfresh IH.
    destruct (decide (i = k)) as [->|Hne].
    + by rewrite !lookup_insert_eq.
    + by rewrite !lookup_insert_ne.
Qed.

Lemma dom_params_of (a : make_args) : dom (params_of a) = parameter_set.
Proof.
  unfold params_of, parameter_set, param_names.
  rewrite !dom_insert_L, dom_singleton_L. set_solver.
Qed.

Lemma dom_assign_all (params kwargs : gmap string value) :
  dom (assign_all params kwargs) = dom kwargs ∪ dom params.
Proof.
  apply set_eq. intros k.
  rewrite elem_of_union, !elem_of_dom, lookup_assign_all.
  destruct (kwargs !! k) as [v|] eqn:Hk.
  - split; [intros _; left; eauto | eauto].
  - split; [by right | intros [[v Hv]|H]; [discriminate | done]].
Qed.

Lemma bind_keywords_ok_iff (params : gmap string value) :
  (∃ a, bind_keywords params = Ok a) ↔
  dom params ⊆ parameter_set ∧ is_Some (params !! "model").
Proof.
  unfold bind_keywords. fold parameter_set.
  destruct (bool_decide (dom params ⊆ parameter_set)) eqn:Hdom.
  - apply bool_decide_eq_true in Hdom.
    destruct (params !! "model") as [m|].
    + split; [intros _; split; [done | eauto] | intros _; eauto].
    + split; [intros [a [=]] | intros [_ [m [=]]]].
  - apply bool_decide_eq_false in Hdom.
    split; [intros [a [=]] | intros [H _]; contradiction].
Qed.

Lemma bind_keywords_unexpected (params : gmap string value) :
  ¬ dom params ⊆ parameter_set →
  bind_keywords params = Raise unexpected_keyword.
Proof.
  intros Hdom. unfold bind_keywords. fold parameter_set.
  by rewrite bool_decide_eq_false_2.
Qed.

Lemma init_closed_form (E : collaborators) (a : make_args) (w : world) :
  __init__ E a w
  = match directory_error E a with
    | None =>
        (Ok (Agent (params_of a) (built_graph E a) None), built_world E a w)
    | Some e => (Raise e, warned_world a w)
    end.
Proof.
  unfold __init__, call_make_data_visualization_agent, bind, lift, ret.
  rewrite bind_keywords_params_of, make_data_visualization_agent_outcome.
  by destruct (directory_error E a).
Qed.

(** ** Construction of the graph *)




(** C5 as stated fails: with both flags set, logging on and a log
    directory that cannot be created, the construction prints the warning
    and then raises. *)
Lemma bypass_conflict_construction_can_raise :
  truthy (human_in_the_loop conflicting_logging_args) = true ∧
  truthy (bypass_recommended_steps conflicting_logging_args) = true ∧
  make_data_visualization_agent readonly_disk conflicting_logging_args world0
  = (Raise (OSError "No such file or directory"),
     World 0 0 0 0 [bypass_warning] []).
Proof.
  split; [reflexivity|]. split; [reflexivity|].
  rewrite make_data_visualization_agent_outcome. reflexivity.
Qed.

(** ** The Instruction stage *)

(** A pass of [chart_instructor] over a state that holds a dataset, in
    closed form. *)
Lemma chart_instructor_run
    (E : collaborators) (llm n_samples : value) (state : GraphState)
    (d : list (string * value)) (w : world) :
  state !! "data_raw" = Some (VDict d) →
  chart_instructor E llm n_samples state w =
  let summary :=
    join (nl ++ nl) (get_dataframe_summary E [VDataFrame d] n_samples) in
  let w' :=
    World (S (llm_calls w)) (S (summary_calls w)) (exec_calls w)
      (review_calls w)
      ((stdout w ++ [format_agent_name E AGENT_NAME]) ++
       ["    * CREATE CHART GENERATOR INSTRUCTIONS"])%list
      (fs_log w) in
  match llm_invoke E llm (llm_calls w)
          (instructor_prompt E n_samples state d) with
  | Ok content =>
      (Ok ({[ "recommended_steps" :=
                VStr (recommended_steps_label ++ strip content);
              "all_datasets_summary" := VStr summary ]} : GraphState), w')
  | Raise e => (Raise e, w')
  end.
Proof.
  intros Hdata.
  unfold chart_instructor, instructor_prompt, bind, print, summarize,
    llm_call, ret, get at 1.
  rewrite Hdata. simpl.
  by destruct (llm_invoke E llm (llm_calls w) _).
Qed.

(** C2, as amended.  Each pass of [chart_instructor] replaces
    [recommended_steps] by one labeled block: the label followed by the
    stripped answer of the model.  The previous value is handed to the
    model in the prompt and is otherwise dropped. *)
Theorem chart_instructor_replaces_recommended_steps
    (E : collaborators) (llm n_samples : value) (state : GraphState)
    (d : list (string * value)) (content : string) (w : world) :
  state !! "data_raw" = Some (VDict d) →
  llm_invoke E llm (llm_calls w) (instructor_prompt E n_samples state d)
  = Ok content →
  ∃ u w',
    chart_instructor E llm n_samples state w = (Ok u, w') ∧
    merge_state state u !! "recommended_steps"
    = Some (VStr (recommended_steps_label ++ strip content)) ∧
    In ("recommended_steps", get state "recommended_steps")
       (p_inputs (instructor_prompt E n_samples state d)).
Proof.
  intros Hdata Hllm.
  rewrite (chart_instructor_run E llm n_samples state d w Hdata).
  cbv zeta. rewrite Hllm.
  eexists _, _. split; [reflexivity|]. split.
  - by erewrite lookup_merge_state_set.
  - simpl. auto.
Qed.

Lemma chart_instructor_replaces_recommended_steps_witness :
  ∃ u w',
    chart_instructor terse_model (VModel 0) (VInt 30) revisited_state world0
    = (Ok u, w') ∧
    merge_state revisited_state u !! "recommended_steps"
    = Some (VStr (recommended_steps_label ++ "Bar")).
Proof.
  destruct (chart_instructor_replaces_recommended_steps terse_model
              (VModel 0) (VInt 30) revisited_state demo_table "Bar" world0)
    as (u & w' & Hrun & Hnew & _).
  { reflexivity. }
  { reflexivity. }
  exists u, w'. split; [exact Hrun | exact Hnew].
Defined.

(** C2 as stated fails: on a revisit with an earlier recommendation in the
    state, the value after the pass does not contain the earlier text, let
    alone extend it. *)
Lemma chart_instructor_discards_earlier_steps :
  ∃ u w' new,
    chart_instructor terse_model (VModel 0) (VInt 30) revisited_state world0
    = (Ok u, w') ∧
    get revisited_state "recommended_steps" = VStr earlier_steps ∧
    get (merge_state revisited_state u) "recommended_steps" = VStr new ∧
    ¬ (∃ pre post, new = pre ++ earlier_steps ++ post).
Proof.
  rewrite (chart_instructor_run terse_model (VModel 0) (VInt 30)
             revisited_state demo_table world0) by reflexivity.
  cbv zeta.
  change (llm_invoke terse_model (VModel 0) (llm_calls world0)
            (instructor_prompt terse_model (VInt 30) revisited_state
               demo_table))
    with (@Ok string "Bar").
  cbv iota beta.
  eexists _, _, _. split; [reflexivity|].
  split; [reflexivity|]. split.
  { unfold get. erewrite lookup_merge_state_set by done. reflexivity. }
  intros (pre & post & Heq).
  apply (f_equal String.length) in Heq.
  rewrite !string_app_length in Heq.
  change (String.length earlier_steps) with 79%nat in Heq.
  change (String.length recommended_steps_label) with 37%nat in Heq.
  change (String.length (strip "Bar")) with 3%nat in Heq.
  lia.
Qed.

(** ** The dataset summary *)

Lemma chart_generator_summary
    (E : collaborators)
    (llm n_samples bypass file_name log log_path overwrite : value)
    (state : GraphState) (d : list (string * value)) (w w' : world)
    (r : result GraphState) :
  state !! "data_raw" = Some (VDict d) →
  chart_generator E llm n_samples bypass file_name log log_path overwrite
    state w = (r, w') →
  if truthy bypass then
    summary_calls w' = S (summary_calls w) ∧
    ∀ u, r = Ok u →
         u !! "all_datasets_summary" = Some (fresh_summary E n_samples d)
  else
    summary_calls w' = summary_calls w ∧
    ∀ u, r = Ok u →
         u !! "all_datasets_summary"
         = Some (get state "all_datasets_summary").
Proof.
  intros Hdata. unfold chart_generator. unfold_effects.
  unfold get at 1. rewrite Hdata.
  destruct (truthy bypass); simpl;
    repeat (split_on_match; simpl);
    intros Hrun; pair_inversion; simpl;
    (split; [reflexivity|]); intros u Hu; pair_inversion;
    reflexivity.
Qed.

(** C8, as amended.  [chart_instructor] computes the dataset summary on
    every pass, whether or not one is stored already, and stores the fresh
    result.  [chart_generator] reads the stored summary without a
    computation when the instruction bypass is off, and computes it itself
    when the bypass is on. *)
Theorem summary_computed_on_every_instruction_pass
    (E : collaborators)
    (llm n_samples bypass file_name log log_path overwrite : value)
    (state : GraphState) (d : list (string * value)) (w : world) :
  state !! "data_raw" = Some (VDict d) →
  (∀ r w',
     chart_instructor E llm n_samples state w = (r, w') →
     summary_calls w' = S (summary_calls w) ∧
     ∀ u, r = Ok u →
          u !! "all_datasets_summary" = Some (fresh_summary E n_samples d)) ∧
  (∀ r w',
     chart_generator E llm n_samples bypass file_name log log_path overwrite
       state w = (r, w') →
     if truthy bypass then
       summary_calls w' = S (summary_calls w) ∧
       ∀ u, r = Ok u →
            u !! "all_datasets_summary" = Some (fresh_summary E n_samples d)
     else
       summary_calls w' = summary_calls w ∧
       ∀ u, r = Ok u →
            u !! "all_datasets_summary"
            = Some (get state "all_datasets_summary")).
Proof.
  intros Hdata. split.
  - intros r w'.
    rewrite (chart_instructor_run E llm n_samples state d w Hdata).
    cbv zeta. destruct (llm_invoke E llm _ _); intros Hrun;
      pair_inversion; (split; [reflexivity|]); intros u Hu;
      pair_inversion; reflexivity.
  - intros r w'. by apply chart_generator_summary.
Qed.

Lemma summary_computed_on_every_instruction_pass_witness :
  ∃ r w',
    chart_instructor terse_model (VModel 0) (VInt 30) revisited_state world0
    = (r, w') ∧
    summary_calls w' = 1%nat.
Proof.
  destruct (chart_instructor terse_model (VModel 0) (VInt 30)
              revisited_state world0) as [r w'] eqn:Hrun.
  exists r, w'. split; [reflexivity|].
  destruct (summary_computed_on_every_instruction_pass terse_model
              (VModel 0) (VInt 30) (VBool false) VNone (VBool false) VNone
              (VBool true) revisited_state demo_table world0)
    as [Hinstructor _].
  { reflexivity. }
  apply (Hinstructor r w' Hrun).
Defined.

(** C8 as stated fails: with a summary already stored in the state, a pass
    of [chart_instructor] calls the summarizer again. *)
Lemma chart_instructor_recomputes_stored_summary :
  revisited_state !! "all_datasets_summary" = Some (VStr "rows: 2") ∧
  ∃ u w',
    chart_instructor terse_model (VModel 0) (VInt 30) revisited_state world0
    = (Ok u, w') ∧
    summary_calls world0 = 0%nat ∧ summary_calls w' = 1%nat.
Proof.
  split; [reflexivity|].
  rewrite (chart_instructor_run terse_model (VModel 0) (VInt 30)
             revisited_state demo_table world0) by reflexivity.
  cbv zeta.
  change (llm_invoke terse_model (VModel 0) (llm_calls world0)
            (instructor_prompt terse_model (VInt 30) revisited_state
               demo_table))
    with (@Ok string "Bar").
  cbv iota beta. eexists _, _. split; [reflexivity|]. split; reflexivity.
Qed.

(** ** The calling conventions *)

Lemma invoke_agent_returns_none
    (self : DataVisualizationAgent) (d : list (string * value))
    (user_instructions : value) (max_retries retry_count : Z)
    (recursion_limit : nat) (w w' : world) (final : GraphState) :
  invoke (_compiled_graph self) recursion_limit
    (invoke_inputs user_instructions (VDict d) max_retries retry_count) w
  = (Ok final, w') →
  invoke_agent (VDataFrame d) user_instructions max_retries retry_count
    recursion_limit self w
  = (Ok None,
     Agent (_params self) (_compiled_graph self) (Some (FinalState final)),
     w').
Proof. intros Hrun. unfold invoke_agent. simpl. by rewrite Hrun. Qed.

(** C6, as amended.  Both calling conventions accept [user_instructions],
    the dataset, [max_retries] and [retry_count], hand exactly these four
    inputs to the graph, and whenever they return, they return [None].
    After the blocking one, the full final workflow state of the run is
    stored in [self.response], from where [get_response] returns it. *)
Theorem calling_conventions_return_none_and_store
    (self : DataVisualizationAgent) (d : list (string * value))
    (user_instructions : value) (max_retries retry_count : Z)
    (recursion_limit : nat) (w w' : world) (final : GraphState) :
  invoke (_compiled_graph self) recursion_limit
    (invoke_inputs user_instructions (VDict d) max_retries retry_count) w
  = (Ok final, w') →
  (∃ self',
     invoke_agent (VDataFrame d) user_instructions max_retries retry_count
       recursion_limit self w = (Ok None, self', w') ∧
     get_response self' = Some (FinalState final) ∧
     _params self' = _params self) ∧
  (∃ self',
     ainvoke_agent (VDataFrame d) user_instructions max_retries retry_count
       self w = (Ok None, self', w) ∧
     _params self' = _params self) ∧
  dom (invoke_inputs user_instructions (VDict d) max_retries retry_count)
  = ({[ "user_instructions"; "data_raw"; "max_retries"; "retry_count" ]}
     : gset string) ∧
  (∀ data r self' w1,
     invoke_agent data user_instructions max_retries retry_count
       recursion_limit self w = (Ok r, self', w1) ∨
     ainvoke_agent data user_instructions max_retries retry_count self w
     = (Ok r, self', w1) →
     r = None).
Proof.
  intros Hrun. split_and!.
  - eexists. split; [by apply invoke_agent_returns_none|]. done.
  - eexists. split; [reflexivity|]. done.
  - unfold invoke_inputs. rewrite !dom_insert_L, dom_singleton_L. set_solver.
  - intros data r self' w1. unfold invoke_agent, ainvoke_agent.
    destruct (to_dict data) as [table|e]; [|by intros [[=]|[=]]].
    destruct (invoke _ _ (invoke_inputs _ table _ _) _) as [[s1|e] w2];
      intros [H|H];
      first [discriminate H | injection H; intros; subst; reflexivity].
Qed.

Lemma is_ok_inv {A} (r : result A) : is_ok r = true → ∃ a, r = Ok a.
Proof. destruct r; [eauto | discriminate]. Qed.

(** A complete run of the default configuration: Instruction, Synthesis,
    Execution, Explanation. *)
Lemma demo_run_finishes :
  ∃ final w',
    invoke (_compiled_graph demo_agent) 25 demo_inputs world0
    = (Ok final, w').
Proof.
  destruct (invoke (_compiled_graph demo_agent) 25 demo_inputs world0)
    as [r w'] eqn:Hrun.
  assert (Hok : is_ok
            (invoke (_compiled_graph demo_agent) 25 demo_inputs world0).1
          = true) by (vm_compute; reflexivity).
  rewrite Hrun in Hok. apply is_ok_inv in Hok as [final Hfinal].
  simpl in Hfinal. subst r. eauto.
Qed.

Lemma calling_conventions_return_none_and_store_witness :
  ∃ final w' self',
    invoke_agent (VDataFrame demo_table) (VStr "Plot age against charges.")
      3 0 25 demo_agent world0 = (Ok None, self', w') ∧
    get_response self' = Some (FinalState final).
Proof.
  destruct demo_run_finishes as (final & w' & Hrun).
  destruct (calling_conventions_return_none_and_store demo_agent demo_table
              (VStr "Plot age against charges.") 3 0 25 world0 w' final Hrun)
    as [(self' & Hcall & Hget & _) _].
  exists final, w', self'. split; [exact Hcall | exact Hget].
Defined.

(** C6 as stated fails: on an agent as [__init__] builds it, a blocking
    invocation whose run finishes hands [None] to the caller, not the final
    workflow state. *)
Lemma invoke_agent_does_not_return_state :
  __init__ happy_collaborators default_args world0 = (Ok demo_agent, world0) ∧
  ∃ final w' self',
    invoke (_compiled_graph demo_agent) 25 demo_inputs world0
    = (Ok final, w') ∧
    invoke_agent (VDataFrame demo_table) (VStr "Plot age against charges.")
      3 0 25 demo_agent world0 = (Ok None, self', w') ∧
    (None : option response_value) ≠ Some (FinalState final).
Proof.
  split.
  { rewrite init_closed_form. reflexivity. }
  destruct demo_run_finishes as (final & w' & Hrun).
  exists final, w'. eexists. split; [exact Hrun|].
  split; [by apply invoke_agent_returns_none | discriminate].
Qed.

(** ** Updating parameters *)

Lemma update_params_closed_form
    (E : collaborators) (kwargs : gmap string value)
    (self : DataVisualizationAgent) (w : world) :
  update_params E kwargs self w
  = let params := assign_all (_params self) kwargs in
    match bind_keywords params with
    | Ok a =>
        match directory_error E a with
        | None =>
            (Ok (), Agent params (built_graph E a) None, built_world E a w)
        | Some e =>
            (Raise e, Agent params (_compiled_graph self) None,
             warned_world a w)
        end
    | Raise e => (Raise e, Agent params (_compiled_graph self) None, w)
    end.
Proof.
  unfold update_params, _make_compiled_graph,
    call_make_data_visualization_agent, bind, lift, assign_all. simpl.
  destruct (bind_keywords _) as [a|e]; simpl; [|done].
  rewrite make_data_visualization_agent_outcome.
  by destruct (directory_error E a).
Qed.


Lemma logging_kwargs_assigned :
  assign_all (params_of default_args) logging_kwargs = params_of logging_args.
Proof.
  apply map_eq. intros k. rewrite lookup_assign_all.
  unfold logging_kwargs, params_of, default_args, logging_args. simpl.
  rewrite !lookup_insert, !lookup_singleton.
  repeat case_decide; congruence.
Qed.


(** C10 as stated fails: both keywords are parameters, but the log
    directory cannot be created, so the rebuild raises and the compiled
    graph is not rebuilt; the parameters are changed and the stored
    response is gone all the same. *)
Lemma update_params_rebuild_can_raise :
  dom enable_logging_kwargs ⊆ parameter_set ∧
  __init__ readonly_disk default_args world0
  = (Ok (Agent (_params readonly_agent) (_compiled_graph readonly_agent)
           None), world0) ∧
  ∃ self',
    update_params readonly_disk enable_logging_kwargs readonly_agent world0
    = (Raise (OSError "No such file or directory"), self', world0) ∧
    _compiled_graph self' = _compiled_graph readonly_agent ∧
    _params self' !! "log" = Some (VBool true) ∧
    response self' = None.
Proof.
  split.
  { unfold enable_logging_kwargs, parameter_set, param_names.
    rewrite dom_insert_L, dom_singleton_L. set_solver. }
  split.
  { rewrite init_closed_form. reflexivity. }
  rewrite update_params_closed_form. cbv zeta.
  assert (Hparams :
    assign_all (_params readonly_agent) enable_logging_kwargs
    = params_of (MakeArgs (VModel 0) (VInt 30) (VBool true)
                   (VStr EmptyString) (VStr "data_visualization.py")
                   (VBool true) (VBool false) (VBool false) (VBool false))).
  { apply map_eq. intros k. rewrite lookup_assign_all.
    unfold enable_logging_kwargs, readonly_agent, params_of, default_args.
    simpl. rewrite !lookup_insert, !lookup_singleton.
    repeat case_decide; congruence. }
  rewrite Hparams, bind_keywords_params_of.
  eexists. split; [reflexivity|]. simpl.
  split; [reflexivity|]. split; [|reflexivity].
  unfold params_of. rewrite 2!lookup_insert_ne by done.
  apply lookup_insert_eq.
Qed.

(** ** What each node writes and touches *)

Lemma chart_instructor_effects
    (E : collaborators) (llm n_samples : value) (state : GraphState)
    (w w' : world) (r : result GraphState) :
  chart_instructor E llm n_samples state w = (r, w') →
  exec_calls w' = exec_calls w ∧ fs_log w' = fs_log w ∧
  ∀ u, r = Ok u →
       ∃ steps summary,
         u = {[ "recommended_steps" := VStr steps;
                "all_datasets_summary" := VStr summary ]}.
Proof.
  unfold chart_instructor. node_cases; intros Hrun; pair_inversion;
    (split; [reflexivity|]); (split; [reflexivity|]);
    intros u Hu; pair_inversion; eauto.
Qed.

Lemma chart_generator_effects
    (E : collaborators)
    (llm n_samples bypass file_name log log_path overwrite : value)
    (state : GraphState) (w w' : world) (r : result GraphState) :
  chart_generator E llm n_samples bypass file_name log log_path overwrite
    state w = (r, w') →
  exec_calls w' = exec_calls w ∧
  (truthy log = false → fs_log w' = fs_log w) ∧
  ∀ u, r = Ok u →
       ∃ code path name summary,
         u = {[ "data_visualization_function" := VStr code;
                "data_visualization_function_path" := path;
                "data_visualization_function_name" := name;
                "all_datasets_summary" := summary ]} ∧
         (truthy log = false → path = VNone ∧ name = VNone).
Proof.
  unfold chart_generator. node_cases; intros Hrun; pair_inversion;
    (split; [reflexivity|]);
    (split; [intros ?; first [reflexivity | congruence]|]);
    intros u Hu; pair_inversion; simpl;
    eexists _, _, _, _; (split; [reflexivity|]);
    intros ?; first [congruence | by split].
Qed.

Lemma execute_effects
    (E : collaborators) (state : GraphState) (w w' : world)
    (r : result GraphState) :
  execute_data_visualization_code E state w = (r, w') →
  fs_log w' = fs_log w ∧
  (exec_calls w' ≤ S (exec_calls w))%nat ∧
  ∀ u, r = Ok u →
       ∃ fig error,
         u = {[ "plotly_graph" := fig;
                "data_visualization_error" := error ]}.
Proof.
  unfold execute_data_visualization_code,
    node_func_execute_agent_code_on_data.
  unfold_effects.
  destruct (get state "data_raw") eqn:Hdata; simpl;
    try destruct (run_agent_function E _ _ _ _) eqn:Hout;
    intros Hrun; pair_inversion; simpl;
    (split; [reflexivity|]); (split; [lia|]);
    intros u Hu; pair_inversion; eauto.
Qed.


Lemma fix_effects
    (E : collaborators) (llm log : value) (state : GraphState)
    (w w' : world) (r : result GraphState) :
  fix_data_visualization_code E llm log state w = (r, w') →
  exec_calls w' = exec_calls w ∧
  (truthy log = false → fs_log w' = fs_log w) ∧
  ∀ u, r = Ok u →
       ∃ code retry_count,
         get state "retry_count" = VInt retry_count ∧
         u = {[ "data_visualization_function" := VStr code;
                "retry_count" := VInt (retry_count + 1) ]}.
Proof.
  unfold fix_data_visualization_code, node_func_fix_agent_code.
  node_cases; intros Hrun; pair_inversion;
    (split; [reflexivity|]);
    (split; [intros ?; first [reflexivity | congruence]|]);
    intros u Hu; pair_inversion; eauto.
Qed.

Lemma explain_effects
    (E : collaborators) (llm : value) (state : GraphState)
    (w w' : world) (r : result GraphState) :
  explain_data_visualization_code E llm state w = (r, w') →
  exec_calls w' = exec_calls w ∧ fs_log w' = fs_log w ∧
  ∀ u, r = Ok u → ∃ note, u = {[ "messages" := VList [note] ]}.
Proof.
  unfold explain_data_visualization_code, node_func_explain_agent_code.
  node_cases; intros Hrun; pair_inversion;
    (split; [reflexivity|]); (split; [reflexivity|]);
    intros u Hu; pair_inversion; eauto.
Qed.

Lemma human_review_effects
    (E : collaborators) (bypass_explain_code : value) (state : GraphState)
    (w w' : world) (r : result Command) :
  human_review E bypass_explain_code state w = (r, w') →
  exec_calls w' = exec_calls w ∧ fs_log w' = fs_log w ∧
  ∃ c, r = Ok c ∧
       let verdict := interrupt E (review_calls w) (review_request_of state) in
       if is_yes verdict
       then goto c = (if truthy bypass_explain_code then N_END
                      else N_explain_data_visualization_code) ∧
            update c = ∅
       else goto c = N_chart_instructor ∧
            update c = {[ "user_instructions" := VStr verdict ]}.
Proof.
  unfold human_review, node_func_human_review, review_request_of.
  unfold_effects.
  destruct (truthy bypass_explain_code); simpl;
    destruct (is_yes _) eqn:Hyes; simpl;
    intros Hrun; pair_inversion; simpl;
    (split; [reflexivity|]); (split; [reflexivity|]);
    eexists; (split; [reflexivity|]); by split.
Qed.

(** ** States a run passes through *)

(** Where a run ends up: in a terminal configuration, in a stage that
    raised, or at the step limit. *)
Lemma run_reaches (g : graph) (fuel : nat) (n : node) (s : GraphState)
    (w : world) (res : run_result) (w' : world) :
  run g fuel n s w = (res, w') →
  ∃ n' s' w'',
    reaches g (n, s, w) (n', s', w'') ∧
    ((res = Finished s' ∧ n' = N_END ∧ w'' = w') ∨
     (res = OutOfFuel ∧ w'' = w') ∨
     (∃ e, res = Crashed e ∧ step g n' s' w'' = (Raise e, w'))).
Proof.
  revert n s w. induction fuel as [|fuel IH]; intros n s w Hrun.
  - exists n, s, w. split; [constructor|].
    destruct n; simpl in Hrun; injection Hrun as <- <-; auto.
  - destruct (decide (n = N_END)) as [->|Hn].
    { simpl in Hrun. injection Hrun as <- <-.
      exists N_END, s, w. split; [constructor | auto]. }
    assert (Hunfold : run g (S fuel) n s w =
              match step g n s w with
              | (Ok next, w1) => run g fuel next.1 next.2 w1
              | (Raise e, w1) => (Crashed e, w1)
              end) by (by destruct n).
    rewrite Hunfold in Hrun.
    destruct (step g n s w) as [[[n1 s1]|e] w1] eqn:Hstep.
    + simpl in Hrun. destruct (IH _ _ _ Hrun) as (n' & s' & w'' & Hreach & Hend).
      exists n', s', w''. split; [|exact Hend].
      by eapply reaches_next.
    + injection Hrun as <- <-.
      exists n, s, w. split; [constructor|]. right; right. eauto.
Qed.

(** ** Runs without logging *)

Lemma step_without_log
    (E : collaborators) (a : make_args) (n : node) (s : GraphState)
    (w w' : world) (r : result (node * GraphState)) :
  truthy (log a) = false →
  step (built_graph E a) n s w = (r, w') →
  fs_log w' = fs_log w ∧
  ∀ n' s', r = Ok (n', s') →
    empty_or_absent (s !! "data_visualization_function_path") →
    empty_or_absent (s' !! "data_visualization_function_path").
Proof.
  intros Hlog.
  destruct n; unfold step, bind, ret; simpl.
  - destruct (chart_instructor _ _ _ _ _) as [[u|e] w1] eqn:Hnode;
      intros Hstep; pair_inversion;
      apply chart_instructor_effects in Hnode as (_ & Hfs & Hu);
      (split; [exact Hfs|]); intros n' s' [= <- <-] Hs.
    destruct (Hu _ eq_refl) as (steps & summary & ->).
    by rewrite lookup_merge_state_frame.
  - destruct (human_review _ _ _ _) as [[c|e] w1] eqn:Hnode;
      intros Hstep; pair_inversion;
      apply human_review_effects in Hnode as (_ & Hfs & c' & [= <-] & Hverdict);
      (split; [exact Hfs|]); intros n' s' [= <- <-] Hs.
    cbv zeta in Hverdict.
    destruct (is_yes _); destruct Hverdict as [_ ->];
      by rewrite lookup_merge_state_frame.
  - destruct (chart_generator _ _ _ _ _ _ _ _ _ _) as [[u|e] w1] eqn:Hnode;
      intros Hstep; pair_inversion;
      apply chart_generator_effects in Hnode as (_ & Hfs & Hu);
      (split; [by apply Hfs|]); intros n' s' [= <- <-] Hs.
    destruct (Hu _ eq_refl) as (code & path & name & summary & -> & Hpath).
    destruct (Hpath Hlog) as [-> ->].
    right; left. by erewrite lookup_merge_state_set.
  - destruct (execute_data_visualization_code _ _ _) as [[u|e] w1] eqn:Hnode;
      [|intros Hstep; pair_inversion;
        apply execute_effects in Hnode as (Hfs & _);
        split; [exact Hfs | intros ? ? Hr; discriminate Hr]].
    apply execute_effects in Hnode as (Hfs & _ & Hu).
    destruct (Hu _ eq_refl) as (fig & error & ->).
    destruct (error_and_can_retry _ _); intros Hstep; pair_inversion;
      (split; [exact Hfs|]); intros n' s' [= <- <-] Hs;
      by rewrite lookup_merge_state_frame.
  - destruct (fix_data_visualization_code _ _ _ _ _) as [[u|e] w1] eqn:Hnode;
      intros Hstep; pair_inversion;
      apply fix_effects in Hnode as (_ & Hfs & Hu);
      (split; [by apply Hfs|]); intros n' s' [= <- <-] Hs.
    destruct (Hu _ eq_refl) as (code & retry_count & _ & ->).
    by rewrite lookup_merge_state_frame.
  - destruct (explain_data_visualization_code _ _ _ _) as [[u|e] w1] eqn:Hnode;
      intros Hstep; pair_inversion;
      apply explain_effects in Hnode as (_ & Hfs & Hu);
      (split; [exact Hfs|]); intros n' s' [= <- <-] Hs.
    destruct (Hu _ eq_refl) as (note & ->).
    by rewrite lookup_merge_state_frame.
  - intros Hstep; pair_inversion. split; [reflexivity|].
    by intros n' s' [= <- <-] Hs.
Qed.

Lemma reaches_without_log
    (E : collaborators) (a : make_args) (c c' : config) :
  truthy (log a) = false →
  reaches (built_graph E a) c c' →
  empty_or_absent (c.1.2 !! "data_visualization_function_path") →
  fs_log c'.2 = fs_log c.2 ∧
  empty_or_absent (c'.1.2 !! "data_visualization_function_path").
Proof.
  intros Hlog Hreach. induction Hreach as [c|n n' s s' w w' c Hn Hstep _ IH];
    intros Hs; [done|].
  destruct (step_without_log E a n s w w' _ Hlog Hstep) as [Hfs Hpath].
  simpl in *. destruct IH as [Hfs' Hpath']; [by eapply Hpath|].
  split; [congruence | exact Hpath'].
Qed.

(** C7. In a run constructed with [log] off,
    [data_visualization_function_path] is empty or absent in every state
    the pipeline produces, and nothing is written to the filesystem: no log
    directory is created at construction and no stage persists a file,
    whether the stage completes or raises. *)
Theorem no_logging_no_path_no_filesystem
    (E : collaborators) (a : make_args) (w0 : world)
    (user_instructions data : value) (max_retries retry_count : Z) :
  truthy (log a) = false →
  ∃ g w1,
    make_data_visualization_agent E a w0 = (Ok g, w1) ∧
    fs_log w1 = fs_log w0 ∧
    let inputs :=
      invoke_inputs user_instructions data max_retries retry_count in
    (∀ n s w,
       reaches g (entry_point g, inputs, w1) (n, s, w) →
       fs_log w = fs_log w0 ∧
       empty_or_absent (s !! "data_visualization_function_path") ∧
       ∀ r w', step g n s w = (r, w') → fs_log w' = fs_log w0) ∧
    (∀ fuel res w',
       run g fuel (entry_point g) inputs w1 = (res, w') →
       fs_log w' = fs_log w0 ∧
       ∀ final, res = Finished final →
                empty_or_absent
                  (final !! "data_visualization_function_path")).
Proof.
  intros Hlog.
  exists (built_graph E a), (built_world E a w0).
  split; [by apply make_data_visualization_agent_closed_form,
                directory_error_no_log|].
  assert (Hfs1 : fs_log (built_world E a w0) = fs_log w0).
  { unfold built_world. simpl. by rewrite Hlog. }
  split; [exact Hfs1|]. cbv zeta.
  assert (Hinit : empty_or_absent
            (invoke_inputs user_instructions data max_retries retry_count
               !! "data_visualization_function_path")).
  { by left. }
  assert (Hreach : ∀ n s w,
            reaches (built_graph E a)
              (entry_point (built_graph E a),
               invoke_inputs user_instructions data max_retries retry_count,
               built_world E a w0) (n, s, w) →
            fs_log w = fs_log w0 ∧
            empty_or_absent (s !! "data_visualization_function_path")).
  { intros n s w Hr.
    destruct (reaches_without_log E a _ _ Hlog Hr Hinit) as [Hfs Hpath].
    simpl in *. split; [congruence | exact Hpath]. }
  split.
  - intros n s w Hr. destruct (Hreach n s w Hr) as [Hfs Hpath].
    split; [exact Hfs|]. split; [exact Hpath|].
    intros r w' Hstep.
    destruct (step_without_log E a n s w w' r Hlog Hstep) as [Hfs' _].
    congruence.
  - intros fuel res w' Hrun.
    destruct (run_reaches _ _ _ _ _ _ _ Hrun)
      as (n' & s' & w'' & Hr & Hend).
    destruct (Hreach n' s' w'' Hr) as [Hfs Hpath].
    destruct Hend as [(-> & -> & ->)|[(-> & ->)|(e & -> & Hstep)]].
    + split; [exact Hfs|]. by intros final [= <-].
    + split; [exact Hfs | by intros final [=]].
    + destruct (step_without_log E a n' s' w'' w' _ Hlog Hstep) as [Hfs' _].
      split; [congruence | by intros final [=]].
Qed.

Lemma no_logging_no_path_no_filesystem_witness :
  ∃ g w1,
    make_data_visualization_agent happy_collaborators default_args world0
    = (Ok g, w1) ∧
    ∀ fuel res w',
      run g fuel (entry_point g) demo_inputs w1 = (res, w') →
      fs_log w' = [].
Proof.
  destruct (no_logging_no_path_no_filesystem happy_collaborators
              default_args world0 (VStr "Plot age against charges.")
              (VDict demo_table) 3 0)
    as (g & w1 & Hmake & _ & _ & Hrun).
  { reflexivity. }
  exists g, w1. split; [exact Hmake|].
  intros fuel res w' H. apply (Hrun fuel res w' H).
Defined.

(** ** The Execution and Repair cycle *)








Section RepairLoop.

Context (E : collaborators) (a : make_args).
Context (d : list (string * value)) (max_retries : Z).

(** Execution keeps failing. *)
Hypothesis always_fails :
  ∀ n code name df, ∃ msg, run_agent_function E n code name df = Raised msg.

(** When the human review is enabled, the human approves. *)
Hypothesis human_approves :
  truthy (human_in_the_loop a) = true →
  ∀ n request, is_yes (interrupt E n request) = true.

#[local] Abbreviation g := (built_graph E a).











End RepairLoop.


(** The scenario of the specification: with [max_retries = 2] and an
    Execution that always fails there are three Execution attempts and two
    Repair passes, and the run ends with the error set and no chart. *)
Example two_retries_scenario :
  let g := built_graph failing_collaborators default_args in
  let out := run g 25 (entry_point g) two_retries_inputs world0 in
  exec_calls out.2 = 3%nat ∧
  match out.1 with
  | Finished final =>
      final !! "retry_count" = Some (VInt 2) ∧
      final !! "plotly_graph" = Some VNone ∧
      truthy (get final "data_visualization_error") = true
  | _ => False
  end.
Proof. vm_compute. repeat split. Qed.


(** After the non-blocking convention the stored response is the awaitable
    itself, on which the accessors that read a key raise. *)
Example accessor_after_ainvoke_raises :
  let out := ainvoke_agent (VDataFrame demo_table)
               (VStr "Plot age against charges.") 3 0 demo_agent world0 in
  out.1.1 = Ok None ∧
  get_response out.1.2 = Some (Coroutine demo_inputs) ∧
  get_plotly_graph happy_collaborators out.1.2
  = Raise (AttributeError "get").
Proof. repeat split. Qed.

(** * Further properties of the module *)


(** ** Construction and parameters *)


(** X2. On an agent whose parameters are the nine of the constructor, the
    updated parameters bind to the signature of
    [make_data_visualization_agent] exactly when every keyword given to
    [update_params] is one of the nine parameter names.  With such
    keywords the call ends as the rebuild on the updated parameters ends:
    it returns when that returns and raises what that raises.  With any
    other keyword it raises the type error of the binding. *)
Theorem update_params_known_keywords
    (E : collaborators) (kwargs : gmap string value)
    (self : DataVisualizationAgent) (w : world) :
  dom (_params self) = parameter_set →
  let params := assign_all (_params self) kwargs in
  ((∃ a, bind_keywords params = Ok a) ↔ dom kwargs ⊆ parameter_set) ∧
  (∀ a, bind_keywords params = Ok a →
        (update_params E kwargs self w).1.1
        = match (make_data_visualization_agent E a w).1 with
          | Ok _ => Ok ()
          | Raise e => Raise e
          end) ∧
  (¬ dom kwargs ⊆ parameter_set →
   (update_params E kwargs self w).1.1 = Raise unexpected_keyword).
Proof.
  intros Hdom params.
  assert (Hmodel : is_Some (params !! "model")).
  { apply elem_of_dom. subst params. rewrite dom_assign_all, Hdom.
    apply elem_of_union_r. unfold parameter_set, param_names. set_solver. }
  assert (Hsub : dom params ⊆ parameter_set ↔ dom kwargs ⊆ parameter_set).
  { subst params. rewrite dom_assign_all, Hdom. set_solver. }
  rewrite update_params_closed_form. cbv zeta. fold params.
  split; [|split].
  - rewrite bind_keywords_ok_iff. rewrite Hsub. tauto.
  - intros a Ha. rewrite Ha, make_data_visualization_agent_outcome.
    by destruct (directory_error E a).
  - intros Hunknown.
    rewrite bind_keywords_unexpected; [done|]. by rewrite Hsub.
Qed.

Lemma update_params_known_keywords_witness :
  (update_params happy_collaborators logging_kwargs demo_agent world0).1.1
  = Ok ().
Proof.
  destruct (update_params_known_keywords happy_collaborators logging_kwargs
              demo_agent world0) as (_ & Hknown & _).
  - apply dom_params_of.
  - rewrite (Hknown logging_args).
    + by rewrite make_data_visualization_agent_closed_form.
    + change (_params demo_agent) with (params_of default_args).
      rewrite logging_kwargs_assigned. apply bind_keywords_params_of.
Defined.

(** X3. A call of [update_params] with a keyword that is not a parameter
    name raises, and leaves the agent half updated: the parameter dict
    already holds the new values and the stored response is gone, while the
    compiled graph is still the old one and nothing was printed or
    created. *)
Theorem update_params_unknown_keyword
    (E : collaborators) (kwargs : gmap string value)
    (self : DataVisualizationAgent) (w : world) (k : string) (v : value) :
  kwargs !! k = Some v → k ∉ parameter_set →
  ∃ self',
    update_params E kwargs self w = (Raise unexpected_keyword, self', w) ∧
    _params self' !! k = Some v ∧
    (∀ k' v', kwargs !! k' = Some v' → _params self' !! k' = Some v') ∧
    response self' = None ∧
    _compiled_graph self' = _compiled_graph self.
Proof.
  intros Hk Hunknown. rewrite update_params_closed_form. cbv zeta.
  rewrite bind_keywords_unexpected.
  - eexists. split; [reflexivity|]. simpl.
    split; [by rewrite lookup_assign_all, Hk|].
    split; [|done]. intros k' v' Hk'. by rewrite lookup_assign_all, Hk'.
  - rewrite dom_assign_all. intros Hsub. apply Hunknown, Hsub.
    apply elem_of_union_l, elem_of_dom. eauto.
Qed.

Lemma update_params_unknown_keyword_witness :
  ∃ self',
    update_params happy_collaborators {[ "n_sample" := VInt 10 ]}
      answered_agent world0 = (Raise unexpected_keyword, self', world0) ∧
    response self' = None ∧
    _compiled_graph self' = _compiled_graph answered_agent.
Proof.
  destruct (update_params_unknown_keyword happy_collaborators
              {[ "n_sample" := VInt 10 ]} answered_agent world0
              "n_sample" (VInt 10))
    as (self' & Hcall & _ & _ & Hresponse & Hgraph).
  - apply lookup_singleton_eq.
  - unfold parameter_set, param_names. set_solver.
  - exists self'. split; [exact Hcall|]. split; [exact Hresponse|exact Hgraph].
Defined.

(** X4. [update_params] only ever adds or overwrites keys, so an unknown
    keyword stays in the parameter dict for good: from then on every call
    of [update_params], whatever its keywords, raises again and leaves the
    compiled graph as it is. *)
Theorem update_params_failure_is_permanent
    (E : collaborators) (self : DataVisualizationAgent) (k : string) :
  k ∈ dom (_params self) → k ∉ parameter_set →
  ∀ (kwargs : gmap string value) (w : world),
  ∃ self',
    update_params E kwargs self w = (Raise unexpected_keyword, self', w) ∧
    dom (_params self) ⊆ dom (_params self') ∧
    k ∈ dom (_params self') ∧
    _compiled_graph self' = _compiled_graph self.
Proof.
  intros Hk Hunknown kwargs w. rewrite update_params_closed_form. cbv zeta.
  rewrite bind_keywords_unexpected.
  - eexists. split; [reflexivity|]. simpl. rewrite dom_assign_all.
    split; [set_solver|]. split; [set_solver | done].
  - rewrite dom_assign_all. intros Hsub. apply Hunknown, Hsub. set_solver.
Qed.

Lemma update_params_failure_is_permanent_witness :
  ∃ self',
    update_params happy_collaborators logging_kwargs
      (Agent (<[ "n_sample" := VInt 10 ]> (params_of default_args))
         (built_graph happy_collaborators default_args) None) world0
    = (Raise unexpected_keyword, self', world0).
Proof.
  destruct (update_params_failure_is_permanent happy_collaborators
              (Agent (<[ "n_sample" := VInt 10 ]> (params_of default_args))
                 (built_graph happy_collaborators default_args) None)
              "n_sample") with (kwargs := logging_kwargs) (w := world0)
    as (self' & Hcall & _).
  - simpl. rewrite dom_insert_L. set_solver.
  - unfold parameter_set, param_names. set_solver.
  - exists self'. exact Hcall.
Defined.



(** ** Invocation *)

(** X6. The blocking invocation either returns [None], and then the
    response it stores is the final state that the run of the compiled
    graph on the four inputs returned, with parameters and graph
    untouched; or it raises what the conversion of the dataset or the run
    raised and leaves the agent exactly as it was, so a response stored by
    an earlier invocation survives a failed one. *)
Theorem invoke_agent_stores_or_keeps
    (data_raw user_instructions : value) (max_retries retry_count : Z)
    (recursion_limit : nat) (self : DataVisualizationAgent) (w : world) :
  let out := invoke_agent data_raw user_instructions max_retries retry_count
               recursion_limit self w in
  match out.1.1 with
  | Ok r =>
      r = None ∧
      ∃ data final,
        to_dict data_raw = Ok data ∧
        invoke (_compiled_graph self) recursion_limit
          (invoke_inputs user_instructions data max_retries retry_count) w
        = (Ok final, out.2) ∧
        out.1.2 = Agent (_params self) (_compiled_graph self)
                    (Some (FinalState final))
  | Raise e =>
      out.1.2 = self ∧
      ((to_dict data_raw = Raise e ∧ out.2 = w) ∨
       (∃ data,
          to_dict data_raw = Ok data ∧
          invoke (_compiled_graph self) recursion_limit
            (invoke_inputs user_instructions data max_retries retry_count) w
          = (Raise e, out.2)))
  end.
Proof.
  cbv zeta. unfold invoke_agent.
  destruct (to_dict data_raw) as [data|e]; simpl; [|by split; [|left]].
  destruct (invoke _ _ _ _) as [[final|e] w'] eqn:Hrun; simpl.
  - split; [done|]. by exists data, final.
  - split; [done|]. right. by exists data.
Qed.

(** X7. The non-blocking invocation runs no stage: it stores the awaitable
    built from the four inputs and returns [None].  From then on
    [get_response] returns that awaitable and every accessor that reads a
    key of the response raises an attribute error. *)
Theorem ainvoke_agent_stores_awaitable
    (E : collaborators) (d : list (string * value))
    (user_instructions : value) (max_retries retry_count : Z)
    (self : DataVisualizationAgent) (w : world) (markdown : bool) :
  ∃ self',
    ainvoke_agent (VDataFrame d) user_instructions max_retries retry_count
      self w = (Ok None, self', w) ∧
    get_response self'
    = Some (Coroutine (invoke_inputs user_instructions (VDict d)
                         max_retries retry_count)) ∧
    get_plotly_graph E self' = Raise (AttributeError "get") ∧
    get_data_raw self' = Raise (AttributeError "get") ∧
    get_data_visualization_function E markdown self'
    = Raise (AttributeError "get") ∧
    get_recommended_visualization_steps E markdown self'
    = Raise (AttributeError "get") ∧
    get_log_summary E markdown self' = Raise (AttributeError "get") ∧
    explain_visualization_steps self' = Raise (AttributeError "get").
Proof. eexists. by repeat split. Qed.

(** ** Accessors on a stored response *)

(** X8. On a stored final state, an accessor whose key is missing falls
    back to its default: the empty list for the explanation, the empty
    string for the code and the steps, [None] for the log summary and the
    dataset, and [plotly_from_dict] of [None] for the chart.  On a stored
    final state that is the empty dict, every accessor behaves as if no
    invocation had completed. *)
Theorem accessors_on_missing_keys
    (E : collaborators) (params : gmap string value) (g : graph)
    (final : GraphState) (markdown : bool) :
  final ≠ ∅ →
  let self := Agent params g (Some (FinalState final)) in
  let empty := Agent params g (Some (FinalState ∅)) in
  (final !! "messages" = None →
   explain_visualization_steps self = Ok (VList [])) ∧
  (final !! "data_visualization_function" = None →
   get_data_visualization_function E false self = Ok (VStr EmptyString)) ∧
  (final !! "recommended_steps" = None →
   get_recommended_visualization_steps E false self
   = Ok (VStr EmptyString)) ∧
  (final !! "data_visualization_function_path" = None →
   get_log_summary E markdown self = Ok VNone) ∧
  (final !! "data_raw" = None → get_data_raw self = Ok VNone) ∧
  (final !! "plotly_graph" = None →
   get_plotly_graph E self = Ok (plotly_from_dict E VNone)) ∧
  (explain_visualization_steps empty = Ok (VList []) ∧
   get_data_visualization_function E markdown empty = Ok VNone ∧
   get_recommended_visualization_steps E markdown empty = Ok VNone ∧
   get_log_summary E markdown empty = Ok VNone ∧
   get_data_raw empty = Ok VNone ∧
   get_plotly_graph E empty = Ok VNone).
Proof.
  intros Hfinal. cbv zeta.
  assert (Htruthy : response_truthy (Agent params g (Some (FinalState final)))
                    = true).
  { unfold response_truthy. simpl. by rewrite bool_decide_eq_false_2. }
  unfold explain_visualization_steps, get_data_visualization_function,
    get_recommended_visualization_steps, get_log_summary, get_data_raw,
    get_plotly_graph.
  rewrite Htruthy. unfold response_get, get_default. simpl.
  split_and!; try (intros ->; reflexivity); reflexivity.
Qed.

Lemma accessors_on_missing_keys_witness :
  get_data_visualization_function happy_collaborators false answered_agent
  = Ok (VStr EmptyString).
Proof.
  destruct (accessors_on_missing_keys happy_collaborators
              (params_of default_args)
              (built_graph happy_collaborators default_args)
              demo_inputs false)
    as (_ & Hcode & _).
  - intros Hempty. apply (f_equal (λ m : GraphState, m !! "data_raw")) in Hempty.
    discriminate Hempty.
  - apply Hcode. reflexivity.
Defined.

(** ** The dataset through a run *)





(** ** The stages defined in the module *)

(** X10. A completed pass of [chart_instructor] changes the keys
    [recommended_steps] and [all_datasets_summary] of the state and no
    other; a completed pass of [chart_generator] changes
    [data_visualization_function], its path and name, and
    [all_datasets_summary], and no other. *)
Theorem source_stages_write_sets
    (E : collaborators)
    (llm n_samples bypass file_name log log_path overwrite : value)
    (state : GraphState) (w : world) :
  (∀ u w',
     chart_instructor E llm n_samples state w = (Ok u, w') →
     ∀ k, k ≠ "recommended_steps" → k ≠ "all_datasets_summary" →
          merge_state state u !! k = state !! k) ∧
  (∀ u w',
     chart_generator E llm n_samples bypass file_name log log_path overwrite
       state w = (Ok u, w') →
     ∀ k, k ≠ "data_visualization_function" →
          k ≠ "data_visualization_function_path" →
          k ≠ "data_visualization_function_name" →
          k ≠ "all_datasets_summary" →
          merge_state state u !! k = state !! k).
Proof.
  split.
  - intros u w' Hnode k Hk1 Hk2.
    apply chart_instructor_effects in Hnode as (_ & _ & Hu).
    destruct (Hu _ eq_refl) as (steps & summary & ->).
    apply lookup_merge_state_frame. by simplify_map_eq.
  - intros u w' Hnode k Hk1 Hk2 Hk3 Hk4.
    apply chart_generator_effects in Hnode as (_ & _ & Hu).
    destruct (Hu _ eq_refl) as (code & path & name & summary & -> & _).
    apply lookup_merge_state_frame. by simplify_map_eq.
Qed.

Lemma terse_instruction_pass :
  ∃ u w',
    chart_instructor terse_model (VModel 0) (VInt 30) revisited_state world0
    = (Ok u, w').
Proof.
  rewrite (chart_instructor_run terse_model (VModel 0) (VInt 30)
             revisited_state demo_table world0) by reflexivity.
  cbv zeta.
  change (llm_invoke terse_model (VModel 0) (llm_calls world0)
            (instructor_prompt terse_model (VInt 30) revisited_state
               demo_table))
    with (@Ok string "Bar").
  cbv iota beta. eexists _, _. reflexivity.
Qed.

Lemma source_stages_write_sets_witness :
  ∃ u w',
    chart_instructor terse_model (VModel 0) (VInt 30) revisited_state world0
    = (Ok u, w') ∧
    merge_state revisited_state u !! "user_instructions"
    = Some (VStr "no").
Proof.
  destruct terse_instruction_pass as (u & w' & Hrun).
  exists u, w'. split; [exact Hrun|].
  destruct (source_stages_write_sets terse_model (VModel 0) (VInt 30)
              (VBool false) VNone (VBool false) VNone (VBool true)
              revisited_state world0) as [Hinstructor _].
  rewrite (Hinstructor u w' Hrun "user_instructions"); done.
Defined.

(** ** Failures of the model *)

(** X11. The Instruction and Synthesis stages do not retry: when the model
    call raises, or the parser of the Synthesis stage does, the stage
    raises the same exception after exactly one model call, returns no
    update, and has written no file, even with logging on. *)
Theorem model_failure_propagates
    (E : collaborators)
    (llm n_samples bypass file_name log log_path overwrite : value)
    (state : GraphState) (d : list (string * value)) (w : world) (e : exn) :
  state !! "data_raw" = Some (VDict d) →
  truthy bypass = false →
  (llm_invoke E llm (llm_calls w) (instructor_prompt E n_samples state d)
   = Raise e →
   ∃ w', chart_instructor E llm n_samples state w = (Raise e, w') ∧
         llm_calls w' = S (llm_calls w) ∧ fs_log w' = fs_log w) ∧
  (llm_invoke E llm (llm_calls w) (generator_prompt state) = Raise e ∨
   (∃ raw, llm_invoke E llm (llm_calls w) (generator_prompt state) = Ok raw ∧
           PythonOutputParser E raw = Raise e) →
   ∃ w', chart_generator E llm n_samples bypass file_name log log_path
           overwrite state w = (Raise e, w') ∧
         llm_calls w' = S (llm_calls w) ∧ fs_log w' = fs_log w).
Proof.
  intros Hdata Hbypass. split.
  - intros Hllm.
    rewrite (chart_instructor_run E llm n_samples state d w Hdata).
    cbv zeta. rewrite Hllm. eexists. by repeat split.
  - unfold chart_generator, generator_prompt. unfold_effects.
    rewrite Hbypass. simpl.
    intros [Hllm|(raw & Hllm & Hparse)]; rewrite Hllm; simpl.
    + eexists. by repeat split.
    + rewrite Hparse. simpl. eexists. by repeat split.
Qed.

Lemma model_failure_propagates_witness :
  ∃ w',
    chart_generator unreachable_model (VModel 0) (VInt 30) (VBool false)
      (VStr "data_visualization.py") (VBool true) (VStr "logs")
      (VBool true) revisited_state world0
    = (Raise (ModelError "connection refused"), w') ∧
    fs_log w' = [].
Proof.
  destruct (model_failure_propagates unreachable_model (VModel 0) (VInt 30)
              (VBool false) (VStr "data_visualization.py") (VBool true)
              (VStr "logs") (VBool true) revisited_state demo_table world0
              (ModelError "connection refused"))
    as [_ Hgenerator].
  - reflexivity.
  - reflexivity.
  - destruct Hgenerator as (w' & Hrun & _ & Hfs).
    + left. reflexivity.
    + exists w'. split; [exact Hrun | exact Hfs].
Defined.

(** ** The labeled block of the Instruction stage *)

Lemma lstrip_length (s : string) :
  (String.length (lstrip s) ≤ String.length s)%nat.
Proof.
  induction s as [|c s IH]; simpl; [lia|].
  destruct (is_space c); simpl; lia.
Qed.

Lemma lstrip_fixed_head (c : ascii) (r : string) :
  lstrip (String c r) = String c r → is_space c = false.
Proof.
  simpl. destruct (is_space c); [|done].
  intros Heq. pose proof (lstrip_length r) as Hlen.
  rewrite Heq in Hlen. simpl in Hlen. lia.
Qed.

Lemma lstrip_idempotent (s : string) : lstrip (lstrip s) = lstrip s.
Proof.
  induction s as [|c s IH]; [done|]. simpl.
  destruct (is_space c) eqn:Hc; [exact IH|]. simpl. by rewrite Hc.
Qed.

Lemma lstrip_all_space (s : string) :
  all_space s = true → lstrip s = EmptyString.
Proof.
  induction s as [|c s IH]; [done|]. simpl.
  intros [Hc Hs]%andb_true_iff. rewrite Hc. auto.
Qed.

Lemma lstrip_snoc (x : string) (c : ascii) :
  is_space c = false →
  lstrip (x ++ String c EmptyString) = lstrip x ++ String c EmptyString.
Proof.
  intros Hc. induction x as [|b x IH]; simpl.
  - by rewrite Hc.
  - destruct (is_space b); [exact IH | done].
Qed.

Lemma lstrip_rstrip_fixed (u : string) :
  lstrip u = u → lstrip (rstrip u) = rstrip u.
Proof.
  destruct u as [|c r]; [done|]. intros Hfixed.
  pose proof (lstrip_fixed_head c r Hfixed) as Hc.
  unfold rstrip.
  change (String c r) with (String c EmptyString ++ r).
  rewrite string_rev_app.
  change (string_rev (String c EmptyString)) with (String c EmptyString).
  rewrite lstrip_snoc by done. rewrite string_rev_app.
  change (string_rev (String c EmptyString)) with (String c EmptyString).
  simpl. by rewrite Hc.
Qed.

Lemma strip_fixed (s : string) :
  lstrip (strip s) = strip s ∧ rstrip (strip s) = strip s.
Proof.
  unfold strip. split.
  - apply lstrip_rstrip_fixed, lstrip_idempotent.
  - unfold rstrip at 1 2.
    by rewrite string_rev_involutive, lstrip_idempotent.
Qed.

Lemma strip_all_space (s : string) :
  all_space s = true → strip s = EmptyString.
Proof. intros Hs. unfold strip. by rewrite lstrip_all_space. Qed.

(** X12. Whatever the model answers, the value [chart_instructor] stores in
    [recommended_steps] is the label followed by a block with no
    whitespace left to strip at either end; when the answer is empty or all
    whitespace, the stored value is the label alone. *)
Theorem instruction_block_is_stripped
    (E : collaborators) (llm n_samples : value) (state : GraphState)
    (d : list (string * value)) (content : string) (w : world) :
  state !! "data_raw" = Some (VDict d) →
  llm_invoke E llm (llm_calls w) (instructor_prompt E n_samples state d)
  = Ok content →
  ∃ u w' block,
    chart_instructor E llm n_samples state w = (Ok u, w') ∧
    u !! "recommended_steps" = Some (VStr (recommended_steps_label ++ block)) ∧
    lstrip block = block ∧ rstrip block = block ∧
    (all_space content = true → block = EmptyString).
Proof.
  intros Hdata Hllm.
  rewrite (chart_instructor_run E llm n_samples state d w Hdata).
  cbv zeta. rewrite Hllm.
  eexists _, _, (strip content). split; [reflexivity|].
  split; [reflexivity|].
  destruct (strip_fixed content) as [Hl Hr].
  split; [exact Hl|]. split; [exact Hr | apply strip_all_space].
Qed.

Lemma instruction_block_is_stripped_witness :
  ∃ u w',
    chart_instructor silent_model (VModel 0) (VInt 30) revisited_state world0
    = (Ok u, w') ∧
    u !! "recommended_steps" = Some (VStr recommended_steps_label).
Proof.
  destruct (instruction_block_is_stripped silent_model (VModel 0) (VInt 30)
              revisited_state demo_table ("  " ++ nl) world0)
    as (u & w' & block & Hrun & Hsteps & _ & _ & Hblank).
  - reflexivity.
  - reflexivity.
  - exists u, w'. split; [exact Hrun|].
    rewrite Hsteps, Hblank by reflexivity.
    by rewrite string_app_nil_r.
Defined.

(** ** Effects of the construction *)


(** ** What the stages read *)

(** X14. The result of a stage depends on the state only through the keys
    it reads: [chart_instructor] through [data_raw], [user_instructions]
    and [recommended_steps]; [chart_generator] through
    [all_datasets_summary] and [recommended_steps] on its normal path, and
    through [data_raw] and [user_instructions] when the Instruction stage
    is bypassed. *)
Theorem source_stages_read_sets
    (E : collaborators)
    (llm n_samples bypass file_name log log_path overwrite : value)
    (s1 s2 : GraphState) (w : world) :
  (get s1 "data_raw" = get s2 "data_raw" →
   get s1 "user_instructions" = get s2 "user_instructions" →
   get s1 "recommended_steps" = get s2 "recommended_steps" →
   chart_instructor E llm n_samples s1 w
   = chart_instructor E llm n_samples s2 w) ∧
  (truthy bypass = false →
   get s1 "all_datasets_summary" = get s2 "all_datasets_summary" →
   get s1 "recommended_steps" = get s2 "recommended_steps" →
   chart_generator E llm n_samples bypass file_name log log_path overwrite
     s1 w
   = chart_generator E llm n_samples bypass file_name log log_path overwrite
       s2 w) ∧
  (truthy bypass = true →
   get s1 "data_raw" = get s2 "data_raw" →
   get s1 "user_instructions" = get s2 "user_instructions" →
   chart_generator E llm n_samples bypass file_name log log_path overwrite
     s1 w
   = chart_generator E llm n_samples bypass file_name log log_path overwrite
       s2 w).
Proof.
  split_and!.
  - intros Hd Hu Hr. unfold chart_instructor. by rewrite Hd, Hu, Hr.
  - intros Hb Hs Hr. unfold chart_generator. by rewrite Hb, Hs, Hr.
  - intros Hb Hd Hu. unfold chart_generator. by rewrite Hb, Hd, Hu.
Qed.

Lemma source_stages_read_sets_witness :
  chart_generator happy_collaborators (VModel 0) (VInt 30) (VBool true)
    VNone (VBool false) VNone (VBool true) revisited_state world0
  = chart_generator happy_collaborators (VModel 0) (VInt 30) (VBool true)
      VNone (VBool false) VNone (VBool true)
      (<[ "recommended_steps" := VStr "Use a pie chart." ]> revisited_state)
      world0.
Proof.
  destruct (source_stages_read_sets happy_collaborators (VModel 0) (VInt 30)
              (VBool true) VNone (VBool false) VNone (VBool true)
              revisited_state
              (<[ "recommended_steps" := VStr "Use a pie chart." ]>
                 revisited_state) world0)
    as (_ & _ & Hbypass).
  apply Hbypass; reflexivity.
Defined.

(** ** The markdown flag *)

(** X15. The [markdown] flag of an accessor changes the wrapper and nothing
    else: when the plain call returns a string, the markdown call returns
    that string as a Markdown object, put between code fences in the case
    of the generated function; when the plain call returns [None] for want
    of a response or of a log path, so does the markdown call. *)
Theorem markdown_only_wraps
    (E : collaborators) (self : DataVisualizationAgent) (text : string) :
  (get_log_summary E false self = Ok (VStr text) →
   get_log_summary E true self = Ok (VMarkdown text)) ∧
  (get_log_summary E false self = Ok VNone →
   get_log_summary E true self = Ok VNone) ∧
  (get_recommended_visualization_steps E false self = Ok (VStr text) →
   get_recommended_visualization_steps E true self = Ok (VMarkdown text)) ∧
  (get_data_visualization_function E false self = Ok (VStr text) →
   get_data_visualization_function E true self
   = Ok (VMarkdown ("```python" ++ nl ++ text ++ nl ++ "```"))).
Proof.
  unfold get_log_summary, get_recommended_visualization_steps,
    get_data_visualization_function.
  destruct (response_truthy self); [|by repeat split].
  split_and!.
  - destruct (response_get self _ _) as [path|e]; [|done].
    destruct (truthy path); [|done]. by intros [= <-].
  - destruct (response_get self _ _) as [path|e]; [|done].
    by destruct (truthy path).
  - destruct (response_get self _ _) as [steps|e]; [|done].
    by intros [= ->].
  - destruct (response_get self _ _) as [code|e]; [|done].
    by intros [= ->].
Qed.

Lemma markdown_only_wraps_witness :
  get_log_summary happy_collaborators true logged_agent
  = Ok (VMarkdown "Log Path: logs/data_visualization.py").
Proof.
  destruct (markdown_only_wraps happy_collaborators logged_agent
              "Log Path: logs/data_visualization.py") as (Hlog & _).
  apply Hlog. reflexivity.
Defined.
